(** * s3website: a static-website front end for an S3 bucket

    Shallow embedding of [package s3website] (s3website.go) and of the
    [serveFile] of the stand-alone [package main] variant that ships in the
    same repository, followed by the properties of request resolution and
    response construction.

    Conventions.
    - A Go [string] is a [string] (a sequence of 8-bit characters); a Go
      [[]byte] is a [list byte].
    - [uint32] values are [Z] with the wrap-around written out.
    - [http.Header] is a [gmap string (list string)] keyed by canonical
      header names.
    - The handler threads one state through its calls: the response header
      map and the chronological log of the calls that leave the process
      (S3 requests and the [net/http] helpers that write the response). *)

From Stdlib Require Import ZArith List Ascii String Strings.Byte Bool Lia.
From stdpp Require Import base option list strings gmap.
Import ListNotations.

Local Open Scope Z_scope.
Local Open Scope string_scope.

(* ===================================================================== *)
(** ** Bytes and 32-bit words *)
(* ===================================================================== *)

Definition byteZ (b : byte) : Z := Z.of_N (Byte.to_N b).

Definition Zbyte (z : Z) : byte :=
  match Byte.of_N (Z.to_N (z mod 256)) with
  | Some b => b
  | None => x00
  end.

Definition wrap32 (z : Z) : Z := z mod 2 ^ 32.

(** [x>>n | x<<(32-n)] on a [uint32]. *)
Definition rotr (n x : Z) : Z :=
  Z.lor (Z.shiftr x n) (wrap32 (Z.shiftl x (32 - n))).

(** [x<<n | x>>(32-n)] on a [uint32]. *)
Definition rotl (n x : Z) : Z :=
  Z.lor (wrap32 (Z.shiftl x n)) (Z.shiftr x (32 - n)).

(** [^x] on a [uint32]. *)
Definition not32 (x : Z) : Z := Z.lxor x (2 ^ 32 - 1).

(** Big-endian 32-bit word of four bytes, and back. *)
Definition be32 (b0 b1 b2 b3 : byte) : Z :=
  Z.lor (Z.lor (Z.shiftl (byteZ b0) 24) (Z.shiftl (byteZ b1) 16))
        (Z.lor (Z.shiftl (byteZ b2) 8) (byteZ b3)).

Definition putBe32 (x : Z) : list byte :=
  [Zbyte (Z.shiftr x 24); Zbyte (Z.shiftr x 16); Zbyte (Z.shiftr x 8); Zbyte x].

Definition putBe64 (x : Z) : list byte :=
  putBe32 (Z.shiftr x 32) ++ putBe32 (wrap32 x).

Definition putLe32 (x : Z) : list byte :=
  [Zbyte x; Zbyte (Z.shiftr x 8); Zbyte (Z.shiftr x 16); Zbyte (Z.shiftr x 24)].

Fixpoint beWords (p : list byte) : list Z :=
  match p with
  | b0 :: b1 :: b2 :: b3 :: rest => be32 b0 b1 b2 b3 :: beWords rest
  | _ => []
  end.

(** Cut a byte sequence into chunks of [n] bytes; [fuel] bounds the number
    of chunks. *)
Fixpoint chunks (fuel : nat) (n : nat) (p : list byte) : list (list byte) :=
  match fuel with
  | O => []
  | S fuel' =>
      match p with
      | [] => []
      | _ => take n p :: chunks fuel' n (drop n p)
      end
  end.

(** Merkle-Damgard padding shared by SHA-1 and SHA-256: a 0x80 byte, zeros
    up to 56 mod 64, then the bit length as a big-endian 64-bit integer. *)
Definition mdPad (msg : list byte) : list byte :=
  let len := Z.of_nat (length msg) in
  let zeros := Z.to_nat ((55 - len) mod 64) in
  msg ++ [x80] ++ repeat x00 zeros ++ putBe64 (len * 8).

(** Blank-separated hexadecimal words, for tables of constants. *)
Definition hexDigit (c : ascii) : Z :=
  let n := Z.of_nat (nat_of_ascii c) in
  if (48 <=? n)%Z && (n <=? 57)%Z then n - 48
  else if (97 <=? n)%Z && (n <=? 102)%Z then n - 87
  else 0.

Fixpoint hexWordsFrom (s : string) (cur : option Z) : list Z :=
  match s with
  | EmptyString =>
      match cur with
      | Some v => [v]
      | None => []
      end
  | String c s' =>
      if Ascii.eqb c " " then
        match cur with
        | Some v => v :: hexWordsFrom s' None
        | None => hexWordsFrom s' None
        end
      else hexWordsFrom s' (Some (16 * default 0 cur + hexDigit c))
  end.

Definition hexWords (s : string) : list Z := hexWordsFrom s None.

(* ===================================================================== *)
(** ** crypto/sha256 *)
(* ===================================================================== *)

Module Sha256.

(** The round constants [_K] and the initial state, written as in
    FIPS 180-4: blank-separated words of eight hexadecimal digits. *)
Definition _K : list Z :=
  hexWords
    ("428a2f98 71374491 b5c0fbcf e9b5dba5 3956c25b 59f111f1 923f82a4 ab1c5ed5 "
  ++ "d807aa98 12835b01 243185be 550c7dc3 72be5d74 80deb1fe 9bdc06a7 c19bf174 "
  ++ "e49b69c1 efbe4786 0fc19dc6 240ca1cc 2de92c6f 4a7484aa 5cb0a9dc 76f988da "
  ++ "983e5152 a831c66d b00327c8 bf597fc7 c6e00bf3 d5a79147 06ca6351 14292967 "
  ++ "27b70a85 2e1b2138 4d2c6dfc 53380d13 650a7354 766a0abb 81c2c92e 92722c85 "
  ++ "a2bfe8a1 a81a664b c24b8b70 c76c51a3 d192e819 d6990624 f40e3585 106aa070 "
  ++ "19a4c116 1e376c08 2748774c 34b0bcb5 391c0cb3 4ed8aa4a 5b9cca4f 682e6ff3 "
  ++ "748f82ee 78a5636f 84c87814 8cc70208 90befffa a4506ceb bef9a3f7 c67178f2").

Definition init : list Z :=
  hexWords
    "6a09e667 bb67ae85 3c6ef372 a54ff53a 510e527f 9b05688c 1f83d9ab 5be0cd19".

(** The message schedule is kept newest first: with [w[i-1]] at the head,
    [w[i-2]], [w[i-7]], [w[i-15]] and [w[i-16]] sit at positions 1, 6, 14
    and 15. *)
Definition nextW (rw : list Z) : Z :=
  let v1 := nth 1 rw 0 in
  let t1 := Z.lxor (Z.lxor (rotr 17 v1) (rotr 19 v1)) (Z.shiftr v1 10) in
  let v2 := nth 14 rw 0 in
  let t2 := Z.lxor (Z.lxor (rotr 7 v2) (rotr 18 v2)) (Z.shiftr v2 3) in
  wrap32 (t1 + nth 6 rw 0 + t2 + nth 15 rw 0).

Fixpoint extend (n : nat) (rw : list Z) : list Z :=
  match n with
  | O => rw
  | S n' => extend n' (nextW rw :: rw)
  end.

Definition schedule (p : list byte) : list Z :=
  rev (extend 48 (rev (beWords p))).

Definition round (s : list Z) (kw : Z * Z) : list Z :=
  match s with
  | [a; b; c; d; e; f; g; h] =>
      let t1 := wrap32 (h
                  + Z.lxor (Z.lxor (rotr 6 e) (rotr 11 e)) (rotr 25 e)
                  + Z.lxor (Z.land e f) (Z.land (not32 e) g)
                  + fst kw + snd kw) in
      let t2 := wrap32 (Z.lxor (Z.lxor (rotr 2 a) (rotr 13 a)) (rotr 22 a)
                  + Z.lxor (Z.lxor (Z.land a b) (Z.land a c)) (Z.land b c)) in
      [wrap32 (t1 + t2); a; b; c; wrap32 (d + t1); e; f; g]
  | _ => s
  end.

(** One 64-byte chunk of [blockGeneric]. *)
Definition block (hs : list Z) (p : list byte) : list Z :=
  let s := fold_left round (combine _K (schedule p)) hs in
  map (fun xy => wrap32 (fst xy + snd xy)) (combine hs s).

(** [sha256.New()], every [Write], then [Sum(nil)]. *)
Definition Sum (msg : list byte) : list byte :=
  let padded := mdPad msg in
  let hs := fold_left block (chunks (length padded) 64 padded) init in
  flat_map putBe32 hs.

End Sha256.

(* ===================================================================== *)
(** ** crypto/sha1 *)
(* ===================================================================== *)

Module Sha1.

Definition init : list Z :=
  hexWords "67452301 efcdab89 98badcfe 10325476 c3d2e1f0".

(** [w[i&0xf]] of the rolling 16-word window, kept newest first:
    [w[i-3]], [w[i-8]], [w[i-14]], [w[i-16]] at positions 2, 7, 13, 15. *)
Definition nextW (rw : list Z) : Z :=
  rotl 1 (Z.lxor (Z.lxor (nth 2 rw 0) (nth 7 rw 0))
                 (Z.lxor (nth 13 rw 0) (nth 15 rw 0))).

Fixpoint extend (n : nat) (rw : list Z) : list Z :=
  match n with
  | O => rw
  | S n' => extend n' (nextW rw :: rw)
  end.

Definition schedule (p : list byte) : list Z :=
  rev (extend 64 (rev (beWords p))).

Definition fk (i : nat) (b c d : Z) : Z * Z :=
  if (i <? 20)%nat then
    (Z.lor (Z.land b c) (Z.land (not32 b) d), 0x5A827999)
  else if (i <? 40)%nat then
    (Z.lxor (Z.lxor b c) d, 0x6ED9EBA1)
  else if (i <? 60)%nat then
    (Z.lor (Z.land (Z.lor b c) d) (Z.land b c), 0x8F1BBCDC)
  else
    (Z.lxor (Z.lxor b c) d, 0xCA62C1D6).

Definition round (s : list Z) (iw : nat * Z) : list Z :=
  match s with
  | [a; b; c; d; e] =>
      let '(f, k) := fk (fst iw) b c d in
      let t := wrap32 (rotl 5 a + f + e + snd iw + k) in
      [t; a; rotl 30 b; c; d]
  | _ => s
  end.

Definition block (hs : list Z) (p : list byte) : list Z :=
  let s := fold_left round (combine (seq 0 80) (schedule p)) hs in
  map (fun xy => wrap32 (fst xy + snd xy)) (combine hs s).

(** [sha1.New()], [Write(data)], then [Sum(nil)]. *)
Definition Sum (msg : list byte) : list byte :=
  let padded := mdPad msg in
  let hs := fold_left block (chunks (length padded) 64 padded) init in
  flat_map putBe32 hs.

End Sha1.

(* ===================================================================== *)
(** ** encoding/base64 *)
(* ===================================================================== *)

Module Base64.

(** An [Encoding]: the 64-character alphabet and the padding character
    ([None] is [base64.NoPadding]). *)
Record Encoding := { encode : string; padChar : option ascii }.

Definition encodeStd : string :=
  "ABCDEFGHIJKLMNOPQRSTUVWXYZabcdefghijklmnopqrstuvwxyz0123456789+/".

Definition StdEncoding : Encoding :=
  {| encode := encodeStd; padChar := Some "="%char |}.

Definition WithPadding (enc : Encoding) (padding : option ascii) : Encoding :=
  {| encode := encode enc; padChar := padding |}.

Definition NoPadding : option ascii := None.

(** [enc.encode[v & 0x3F]] *)
Definition sextet (enc : Encoding) (v : Z) : ascii :=
  match String.get (Z.to_nat (Z.land v 0x3F)) (encode enc) with
  | Some c => c
  | None => "000"%char
  end.

Definition pad (enc : Encoding) (n : nat) : string :=
  match padChar enc with
  | Some c => string_of_list_ascii (repeat c n)
  | None => ""
  end.

Fixpoint EncodeToString (enc : Encoding) (src : list byte) : string :=
  match src with
  | [] => ""
  | [b0] =>
      let val := Z.shiftl (byteZ b0) 16 in
      String (sextet enc (Z.shiftr val 18))
        (String (sextet enc (Z.shiftr val 12)) (pad enc 2))
  | [b0; b1] =>
      let val := Z.lor (Z.shiftl (byteZ b0) 16) (Z.shiftl (byteZ b1) 8) in
      String (sextet enc (Z.shiftr val 18))
        (String (sextet enc (Z.shiftr val 12))
           (String (sextet enc (Z.shiftr val 6)) (pad enc 1)))
  | b0 :: b1 :: b2 :: rest =>
      let val := Z.lor (Z.lor (Z.shiftl (byteZ b0) 16) (Z.shiftl (byteZ b1) 8))
                       (byteZ b2) in
      String (sextet enc (Z.shiftr val 18))
        (String (sextet enc (Z.shiftr val 12))
           (String (sextet enc (Z.shiftr val 6))
              (String (sextet enc val) (EncodeToString enc rest))))
  end.

End Base64.

(* ===================================================================== *)
(** ** A reference gzip encoder

    [compress/gzip] is taken as a parameter of the embedding (see
    [Runtime] below).  For closed evaluations a concrete encoder is needed:
    this one writes the RFC 1952 container around RFC 1951 stored blocks.
    The header is the one Go's writer emits (no name, no time stamp, XFL 0,
    OS 255), and on the empty input the whole stream is byte for byte Go's:
    the header, the final empty stored block [01 00 00 ff ff] that
    [flate]'s [close] writes, a zero CRC-32 and a zero length. *)
(* ===================================================================== *)

Module Gzip.

(** One step of the bitwise CRC-32 (IEEE, reflected polynomial). *)
Definition crcBit (c : Z) : Z :=
  if Z.testbit c 0 then Z.lxor (Z.shiftr c 1) 0xEDB88320 else Z.shiftr c 1.

Definition crcByte (c : Z) (b : byte) : Z :=
  Nat.iter 8 crcBit (Z.lxor c (byteZ b)).

Definition crc32 (p : list byte) : Z :=
  Z.lxor (fold_left crcByte p 0xFFFFFFFF) 0xFFFFFFFF.

Definition putLe16 (x : Z) : list byte := [Zbyte x; Zbyte (Z.shiftr x 8)].

Definition header : list byte :=
  [x1f; x8b; x08; x00; x00; x00; x00; x00; x00; xff].

(** A stored block: BFINAL and BTYPE=00 in one byte, LEN, NLEN, data. *)
Definition stored (final : bool) (p : list byte) : list byte :=
  let len := Z.of_nat (length p) in
  [if final then x01 else x00] ++ putLe16 len
    ++ putLe16 (Z.lxor len 0xFFFF) ++ p.

Definition deflateStored (p : list byte) : list byte :=
  flat_map (stored false) (chunks (length p) (Z.to_nat 65535) p) ++ stored true [].

Definition compress (p : list byte) : list byte :=
  header ++ deflateStored p
    ++ putLe32 (crc32 p) ++ putLe32 (wrap32 (Z.of_nat (length p))).

End Gzip.

(* ===================================================================== *)
(** ** strings, path/filepath, net/textproto *)
(* ===================================================================== *)

Definition dquote : ascii := "034"%char.

(** [strings.Split(s, sep)] at a one-byte separator, the only way the
    source calls it.  The result is never empty: [Split("", ",")] is the
    one-element slice holding the empty string. *)
Fixpoint Split (s : string) (sep : ascii) : list string :=
  match s with
  | EmptyString => [""]
  | String c s' =>
      if Ascii.eqb c sep then "" :: Split s' sep
      else match Split s' sep with
           | t :: ts => String c t :: ts
           | [] => [String c ""]
           end
  end.

(** [unicode.IsSpace] on the UTF-8 encoding of a code point: the one-,
    two- and three-byte sequences of the White_Space property. *)
Definition isSpace1 (a : ascii) : bool :=
  let n := nat_of_ascii a in
  ((9 <=? n) && (n <=? 13) || (n =? 32))%nat.

Definition isSpace2 (a b : ascii) : bool :=
  let m := nat_of_ascii a in
  let n := nat_of_ascii b in
  ((m =? 0xC2) && ((n =? 0x85) || (n =? 0xA0)))%nat.

Definition isSpace3 (a b c : ascii) : bool :=
  let l := nat_of_ascii a in
  let m := nat_of_ascii b in
  let n := nat_of_ascii c in
  ((l =? 0xE1) && (m =? 0x9A) && (n =? 0x80)
   || (l =? 0xE2) && (m =? 0x80)
        && ((0x80 <=? n) && (n <=? 0x8A) || (n =? 0xA8) || (n =? 0xA9)
            || (n =? 0xAF))
   || (l =? 0xE2) && (m =? 0x81) && (n =? 0x9F)
   || (l =? 0xE3) && (m =? 0x80) && (n =? 0x80))%nat.

(** [strings.TrimLeftFunc(s, unicode.IsSpace)] *)
Fixpoint TrimLeftSpace (s : string) : string :=
  match s with
  | String a s1 =>
      if isSpace1 a then TrimLeftSpace s1
      else match s1 with
           | String b s2 =>
               if isSpace2 a b then TrimLeftSpace s2
               else match s2 with
                    | String c s3 =>
                        if isSpace3 a b c then TrimLeftSpace s3 else s
                    | EmptyString => s
                    end
           | EmptyString => s
           end
  | EmptyString => s
  end.

(** [strings.TrimRightFunc(s, unicode.IsSpace)], on the reversed string:
    the last code point is read backwards. *)
Fixpoint TrimLeftSpaceRev (r : string) : string :=
  match r with
  | String a r1 =>
      if isSpace1 a then TrimLeftSpaceRev r1
      else match r1 with
           | String b r2 =>
               if isSpace2 b a then TrimLeftSpaceRev r2
               else match r2 with
                    | String c r3 =>
                        if isSpace3 c b a then TrimLeftSpaceRev r3 else r
                    | EmptyString => r
                    end
           | EmptyString => r
           end
  | EmptyString => r
  end.

Definition TrimRightSpace (s : string) : string :=
  String.rev (TrimLeftSpaceRev (String.rev s)).

(** [strings.TrimSpace] *)
Definition TrimSpace (s : string) : string :=
  TrimRightSpace (TrimLeftSpace s).

(** [strings.HasSuffix] *)
Definition HasSuffix (s suffix : string) : bool :=
  (String.length suffix <=? String.length s)%nat
  && String.eqb
       (substring (String.length s - String.length suffix)
                  (String.length suffix) s)
       suffix.

(** [filepath.Ext]: scan from the end up to the last path separator. *)
Fixpoint extScan (r acc : string) : string :=
  match r with
  | EmptyString => ""
  | String c r' =>
      if Ascii.eqb c "/" then ""
      else if Ascii.eqb c "." then String c acc
      else extScan r' (String c acc)
  end.

Definition Ext (path : string) : string := extScan (String.rev path) "".

(** [textproto.CanonicalMIMEHeaderKey] *)
Definition validHeaderFieldByte (c : ascii) : bool :=
  let n := nat_of_ascii c in
  ((48 <=? n) && (n <=? 57) || (65 <=? n) && (n <=? 90)
   || (97 <=? n) && (n <=? 122)
   || existsb (Nat.eqb n) [33; 35; 36; 37; 38; 39; 42; 43; 45; 46; 94; 95; 96; 124; 126])%nat.

Fixpoint canonicalize (upper : bool) (s : string) : string :=
  match s with
  | EmptyString => ""
  | String c s' =>
      let n := nat_of_ascii c in
      let c' :=
        if (upper && (97 <=? n) && (n <=? 122))%nat then ascii_of_nat (n - 32)
        else if (negb upper && (65 <=? n) && (n <=? 90))%nat then ascii_of_nat (n + 32)
        else c in
      String c' (canonicalize (Ascii.eqb c' "-") s')
  end.

Definition CanonicalMIMEHeaderKey (s : string) : string :=
  if forallb validHeaderFieldByte (list_ascii_of_string s)
  then canonicalize true s else s.

(* ===================================================================== *)
(** ** net/http, io and the AWS SDK, as far as the handler uses them *)
(* ===================================================================== *)

(** [http.Header]: canonical key to the list of its values. *)
Abbreviation Header := (gmap string (list string)).

(** [h.Get(key)]: the first value of the canonical key, or [""]. *)
Definition headerGet (h : Header) (key : string) : string :=
  match h !! CanonicalMIMEHeaderKey key with
  | Some (v :: _) => v
  | _ => ""
  end.

(** [h.Set(key, value)]: the key's values become the single [value]. *)
Definition headerSet (h : Header) (key value : string) : Header :=
  <[CanonicalMIMEHeaderKey key := [value]]> h.

Record Request := { URL_Path : string; req_Header : Header }.

(** [time.Time] as Unix seconds; [time.Time{}] is year 1. *)
Definition Time := Z.
Definition zeroTime : Time := -62135596800.

Definition StatusNotFound : Z := 404.
Definition StatusInternalServerError : Z := 500.

(** A Go [error] value: the text [Error()] returns and, when the value
    implements [awserr.Error], the string [Code()] returns. *)
Record error := { awsCode : option string; errText : string }.

(** [awsErr, ok := err.(awserr.Error); ok && awsErr.Code() == code] *)
Definition hasAwsCode (e : error) (code : string) : bool :=
  match awsCode e with
  | Some c => String.eqb c code
  | None => false
  end.

(** What an [io.Reader] delivers: the successive reads, then [io.EOF]
    ([readErr = None]) or a failure. *)
Record Reader := { reads : list (list byte); readErr : option error }.

Record HeadObjectInput := { head_Bucket : string; head_Key : string }.
Record GetObjectInput := { get_Bucket : string; get_Key : string }.

Record HeadObjectOutput := {
  head_CacheControl : option string;
  head_ContentLength : option Z;
  head_ContentType : option string;
  head_LastModified : option Time
}.

Record GetObjectOutput := {
  Body : Reader;
  CacheControl : option string;
  ContentLength : option Z;
  ContentType : option string;
  LastModified : option Time
}.

(** The Go pair [(out, err)] of an SDK call, whose [out] the handler reads
    only when [err] is nil. *)
Inductive result (A : Type) : Type :=
| Ok (out : A)
| Err (err : error).
Arguments Ok {A} out.
Arguments Err {A} err.

(** [*s3.S3], the configured client: what the bucket answers. *)
Record S3 := {
  HeadObject : HeadObjectInput -> result HeadObjectOutput;
  GetObject : GetObjectInput -> result GetObjectOutput
}.

(** [aws.StringValue], [aws.TimeValue] *)
Definition StringValue (p : option string) : string := default "" p.
Definition TimeValue (p : option Time) : Time := default zeroTime p.

(** The library routines whose results depend on the platform or whose
    algorithm is outside the repository: [compress/gzip] (a writer fed
    [p] and closed leaves [gzip p] in its buffer), [mime.TypeByExtension]
    (the system's MIME tables) and [http.DetectContentType]. *)
Record Runtime := {
  gzip : list byte -> list byte;
  TypeByExtension : string -> string;
  DetectContentType : list byte -> string
}.

(** Everything that leaves the handler, in order: requests to S3 and the
    [net/http] helpers that write the status line, the headers and the
    body.  The helpers are recorded with their arguments; they write the
    response from the header map as it stands when they are called.
    [HttpRedirect url code] is the call [http.Redirect(w, req, url, code)]:
    [url] is what the handler passes, not the Location header, which
    [net/http] derives from it (it cleans the path and keeps the part
    after a question mark). *)
Inductive Event :=
| S3HeadObject (input : HeadObjectInput)
| S3GetObject (input : GetObjectInput)
| HttpError (text : string) (code : Z)
| HttpRedirect (url : string) (code : Z)
| HttpServeContent (name : string) (modtime : Time) (content : list byte).

(** The state a request threads through the handler: [w.Header()] and the
    events so far, oldest first. *)
Record World := { header : Header; trace : list Event }.

(** The [http.ResponseWriter] the server hands to the handler. *)
Definition emptyWorld : World := {| header := ∅; trace := [] |}.

Definition M (A : Type) : Type := World -> A * World.

Definition ret {A} (a : A) : M A := fun w => (a, w).

Definition bind {A B} (m : M A) (k : A -> M B) : M B :=
  fun w => let (a, w') := m w in k a w'.

Notation "x <- m ;; k" := (bind m (fun x => k))
  (at level 100, m at next level, right associativity).
Notation "m ;;; k" := (bind m (fun _ => k))
  (at level 100, right associativity).

Definition emit (e : Event) : M unit :=
  fun w => (tt, {| header := header w; trace := trace w ++ [e] |}).

(** [w.Header().Set(key, value)] and [w.Header().Get(key)] *)
Definition Header_Set (key value : string) : M unit :=
  fun w => (tt, {| header := headerSet (header w) key value; trace := trace w |}).

Definition Header_Get (key : string) : M string :=
  fun w => (headerGet (header w) key, w).

(** [http.Error], [http.NotFound], [http.Redirect], [http.ServeContent] *)
Definition http_Error (text : string) (code : Z) : M unit :=
  emit (HttpError text code).

Definition http_NotFound (req : Request) : M unit :=
  http_Error "404 page not found" StatusNotFound.

Definition http_Redirect (req : Request) (url : string) (code : Z) : M unit :=
  emit (HttpRedirect url code).

Definition http_ServeContent (req : Request) (name : string)
    (modtime : Time) (content : list byte) : M unit :=
  emit (HttpServeContent name modtime content).

Definition call_HeadObject (c : S3) (input : HeadObjectInput)
    : M (result HeadObjectOutput) :=
  emit (S3HeadObject input) ;;; ret (HeadObject c input).

Definition call_GetObject (c : S3) (input : GetObjectInput)
    : M (result GetObjectOutput) :=
  emit (S3GetObject input) ;;; ret (GetObject c input).

Definition isHttp (e : Event) : bool :=
  match e with
  | S3HeadObject _ | S3GetObject _ => false
  | _ => true
  end.

(** [io.WriteCloser] in front of the [data] buffer: a [gzip.Writer] that
    has accepted [input], or the buffer itself. *)
Inductive WriteCloser :=
| gzip_Writer (input : list byte)
| nopWriteCloser (data : list byte).

Definition wc_Write (wc : WriteCloser) (p : list byte) : WriteCloser :=
  match wc with
  | gzip_Writer input => gzip_Writer (input ++ p)
  | nopWriteCloser data => nopWriteCloser (data ++ p)
  end.

(** [Close()], then [data.Bytes()]. *)
Definition wc_Close (rt : Runtime) (wc : WriteCloser) : list byte :=
  match wc with
  | gzip_Writer input => gzip rt input
  | nopWriteCloser data => data
  end.

(** A [hash.Hash] is the bytes written to it so far. *)
Definition Hash := list byte.

(** [io.MultiWriter(dataWriteCloser, fileHash).Write(p)] *)
Definition MultiWriter_Write (mw : WriteCloser * Hash) (p : list byte)
    : WriteCloser * Hash :=
  (wc_Write (fst mw) p, (snd mw ++ p)%list).

(** [io.Copy(dst, src)]: every read is written to [dst]. *)
Definition io_Copy (dst : WriteCloser * Hash) (src : Reader)
    : (WriteCloser * Hash) * option error :=
  (fold_left MultiWriter_Write (reads src) dst, readErr src).

(** [ioutil.ReadAll] *)
Definition ReadAll (src : Reader) : list byte * option error :=
  (concat (reads src), readErr src).

(* ===================================================================== *)
(** ** package s3website (s3website.go) *)
(* ===================================================================== *)

Definition base64Encoding : Base64.Encoding :=
  Base64.WithPadding Base64.StdEncoding Base64.NoPadding.

Definition compressableContentTypes : gmap string bool :=
  list_to_map
    [ ("application/eot", true);
      ("application/font", true);
      ("application/font-sfnt", true);
      ("application/javascript", true);
      ("application/json", true);
      ("application/opentype", true);
      ("application/otf", true);
      ("application/pkcs7-mime", true);
      ("application/truetype", true);
      ("application/ttf", true);
      ("application/vnd.ms-fontobject", true);
      ("application/x-font-opentype", true);
      ("application/x-font-truetype", true);
      ("application/x-font-ttf", true);
      ("application/x-httpd-cgi", true);
      ("application/x-javascript", true);
      ("application/x-mpegurl", true);
      ("application/x-opentype", true);
      ("application/x-otf", true);
      ("application/x-perl", true);
      ("application/x-ttf", true);
      ("application/xhtml+xml", true);
      ("application/xml", true);
      ("application/xml+rss", true);
      ("font/eot", true);
      ("font/opentype", true);
      ("font/otf", true);
      ("font/ttf", true);
      ("image/svg+xml", true);
      ("text/css", true);
      ("text/csv", true);
      ("text/html", true);
      ("text/javascript", true);
      ("text/js", true);
      ("text/plain", true);
      ("text/richtext", true);
      ("text/tab-separated-values", true);
      ("text/x-component", true);
      ("text/x-java-source", true);
      ("text/x-script", true);
      ("text/xml", true) ].

(** [compressableContentTypes[key]]: a missing key reads as [false]. *)
Definition compressable (key : string) : bool :=
  default false (compressableContentTypes !! key).

Definition acceptEncodingGzip (req : Request) : bool :=
  let encodings := Split (headerGet (req_Header req) "accept-encoding") "," in
  existsb (fun encoding => String.eqb (TrimSpace encoding) "gzip") encodings.

Record S3Website := { client : S3; bucket : string }.

Definition NewS3Website (client : S3) (bucket : string) : S3Website :=
  {| client := client; bucket := bucket |}.

Definition headObject (s : S3Website) (key : string)
    : M (option HeadObjectOutput * option error) :=
  let headObjectInput := {| head_Bucket := bucket s; head_Key := key |} in
  r <- call_HeadObject (client s) headObjectInput ;;
  match r with
  | Err err =>
      if hasAwsCode err "NotFound" then ret (None, None)
      else ret (None, Some err)
  | Ok headObjectOutput => ret (Some headObjectOutput, None)
  end.

Definition getObject (s : S3Website) (key : string)
    : M (option GetObjectOutput * option error) :=
  let getObjectInput := {| get_Bucket := bucket s; get_Key := key |} in
  r <- call_GetObject (client s) getObjectInput ;;
  match r with
  | Err err =>
      if hasAwsCode err "NoSuchKey" then ret (None, None)
      else ret (None, Some err)
  | Ok getObjectOutput => ret (Some getObjectOutput, None)
  end.

(** The one-character string holding a double quote. *)
Definition quote : string := String dquote "".

(** [serveFile], for the runs in which [make([]byte, 0, *ContentLength)]
    returns: the [data] buffer then starts empty whatever capacity was
    asked for, and neither writing to it, nor closing the gzip writer on
    it, nor writing to the hash can fail, so that the only error [io.Copy]
    can report is the reader's.  For a length the runtime cannot allocate
    the Go handler panics at that line, after the first Content-Type has
    been set and before anything is read or written; that run is not
    part of the embedding. *)
Definition serveFile (rt : Runtime) (s : S3Website) (req : Request)
    (key : string) : M unit :=
  r <- getObject s key ;;
  match r with
  | (_, Some err) => http_Error (errText err) StatusInternalServerError
  | (None, None) => http_NotFound req
  | (Some getObjectOutput, None) =>
      (* Get the file content-type from the S3 output. *)
      let fileContentType :=
        match ContentType getObjectOutput with
        | Some contentType => contentType
        | None => ""
        end in
      (* If the content-type wasn't set in the S3 output, try to guess it
         based on the file extension. *)
      let fileContentType :=
        if String.eqb fileContentType ""
        then TypeByExtension rt (Ext key) else fileContentType in
      (* Set the response Content-Type header. *)
      (if negb (String.eqb fileContentType "")
       then Header_Set "content-type" fileContentType else ret tt) ;;;
      let data : list byte :=
        match ContentLength getObjectOutput with
        | Some _ => []
        | None => []
        end in
      let gzipEncoded :=
        compressable (hd "" (Split fileContentType ";"))
        && acceptEncodingGzip req in
      let dataWriteCloser :=
        if gzipEncoded then gzip_Writer data else nopWriteCloser data in
      let fileHash : Hash := [] in
      match io_Copy (dataWriteCloser, fileHash) (Body getObjectOutput) with
      | (_, Some err) => http_Error (errText err) StatusInternalServerError
      | ((dataWriteCloser, fileHash), None) =>
          let data := wc_Close rt dataWriteCloser in
          (* Set an ETag header based on the SHA256 hash. *)
          let fileHashSum := Sha256.Sum fileHash in
          let etag :=
            quote ++ Base64.EncodeToString base64Encoding fileHashSum
                  ++ quote in
          Header_Set "etag" etag ;;;
          (* If the file is gzip-encoded, set a Content-Encoding header. *)
          (if gzipEncoded
           then Header_Set "content-encoding" "gzip" ;;;
                Header_Set "vary" "accept-encoding"
           else ret tt) ;;;
          (* Set a Content-Type header. *)
          Header_Set "content-type" fileContentType ;;;
          (* Set a Cache-Control header. *)
          (let cacheControl := StringValue (CacheControl getObjectOutput) in
           if negb (String.eqb cacheControl "")
           then Header_Set "cache-control"
                  (StringValue (ContentType getObjectOutput))
           else Header_Set "cache-control" "max-age=60") ;;;
          http_ServeContent req key
            (TimeValue (LastModified getObjectOutput)) data
      end
  end.

Definition ServeHTTP (rt : Runtime) (s : S3Website) (req : Request)
    : M unit :=
  let key := URL_Path req in
  if HasSuffix key "/" then serveFile rt s req (key ++ "index.html")
  else
    r <- headObject s key ;;
    match r with
    | (_, Some err) => http_Error (errText err) StatusInternalServerError
    | (Some _, None) => serveFile rt s req key
    | (None, None) =>
        r <- headObject s (key ++ "/index.html") ;;
        match r with
        | (_, Some err) => http_Error (errText err) StatusInternalServerError
        | (Some _, None) => http_Redirect req (key ++ "/") 302
        | (None, None) => http_NotFound req
        end
    end.

(* ===================================================================== *)
(** ** package main: the stand-alone variant

    [acceptEncodingGzip], [headObject], [getObject], [ServeHTTP] and the
    table of compressible types are the same text as in the package;
    [serveFile] differs: it reads the whole body first, takes the
    content-type from the response header map, the extension or the first
    bytes, compresses and then hashes with SHA-1, and pads the base64. *)
(* ===================================================================== *)

Module Main.

Definition serveFile (rt : Runtime) (s : S3Website) (req : Request)
    (key : string) : M unit :=
  r <- getObject s key ;;
  match r with
  | (_, Some err) => http_Error (errText err) StatusInternalServerError
  | (None, None) => http_NotFound req
  | (Some getObjectOutput, None) =>
      match ReadAll (Body getObjectOutput) with
      | (_, Some err) => http_Error (errText err) StatusInternalServerError
      | (data, None) =>
          fileContentType <- Header_Get "content-type" ;;
          let fileContentType :=
            if String.eqb fileContentType ""
            then TypeByExtension rt (Ext key) else fileContentType in
          let fileContentType :=
            if String.eqb fileContentType ""
            then DetectContentType rt data else fileContentType in
          let gzipEncoded :=
            compressable (hd "" (Split fileContentType ";"))
            && acceptEncodingGzip req in
          let data := if gzipEncoded then gzip rt data else data in
          (* Get the SHA1 hash value for the file. *)
          let fileHashSum := Sha1.Sum data in
          (* Set an ETag header based on the SHA1 hash. *)
          let etag :=
            quote ++ Base64.EncodeToString Base64.StdEncoding fileHashSum
                  ++ quote in
          Header_Set "etag" etag ;;;
          (* If the file is gzip-encoded, set a Content-Encoding header. *)
          (if gzipEncoded
           then Header_Set "content-encoding" "gzip" ;;;
                Header_Set "vary" "accept-encoding"
           else ret tt) ;;;
          (* Set a Content-Type header. *)
          Header_Set "content-type" fileContentType ;;;
          (* Set a Cache-Control header. *)
          (let cacheControl := StringValue (CacheControl getObjectOutput) in
           if negb (String.eqb cacheControl "")
           then Header_Set "cache-control"
                  (StringValue (ContentType getObjectOutput))
           else Header_Set "cache-control" "max-age=60") ;;;
          http_ServeContent req key
            (TimeValue (LastModified getObjectOutput)) data
      end
  end.

Definition ServeHTTP (rt : Runtime) (s : S3Website) (req : Request)
    : M unit :=
  let key := URL_Path req in
  if HasSuffix key "/" then serveFile rt s req (key ++ "index.html")
  else
    r <- headObject s key ;;
    match r with
    | (_, Some err) => http_Error (errText err) StatusInternalServerError
    | (Some _, None) => serveFile rt s req key
    | (None, None) =>
        r <- headObject s (key ++ "/index.html") ;;
        match r with
        | (_, Some err) =>
            http_Error (errText err) StatusInternalServerError
        | (Some _, None) => http_Redirect req (key ++ "/") 302
        | (None, None) => http_NotFound req
        end
    end.

(** The content-type this variant resolves, from the response header
    map [h] it is handed: the map's, else the extension's, else the one
    sniffed from the bytes. *)
Definition resolvedContentType (rt : Runtime) (key : string)
    (o : GetObjectOutput) (h : Header) : string :=
  let fileContentType := headerGet h "content-type" in
  let fileContentType :=
    if String.eqb fileContentType ""
    then TypeByExtension rt (Ext key) else fileContentType in
  if String.eqb fileContentType ""
  then DetectContentType rt (concat (reads (Body o))) else fileContentType.

(** The bytes this variant hands to [http.ServeContent]. *)
Definition servedContent (rt : Runtime) (req : Request) (key : string)
    (o : GetObjectOutput) (h : Header) : list byte :=
  if compressable (hd "" (Split (resolvedContentType rt key o h) ";"))
     && acceptEncodingGzip req
  then gzip rt (concat (reads (Body o))) else concat (reads (Body o)).

(** The header map this variant has built by then. *)
Definition servedHeader (rt : Runtime) (req : Request) (key : string)
    (o : GetObjectOutput) (h : Header) : Header :=
  let ct := resolvedContentType rt key o h in
  let h2 :=
    <["Etag" := [quote ++ Base64.EncodeToString Base64.StdEncoding
                            (Sha1.Sum (servedContent rt req key o h))
                       ++ quote]]> h in
  let h3 :=
    if compressable (hd "" (Split ct ";")) && acceptEncodingGzip req
    then <["Vary" := ["accept-encoding"]]>
           (<["Content-Encoding" := ["gzip"]]> h2)
    else h2 in
  let h4 := <["Content-Type" := [ct]]> h3 in
  if negb (String.eqb (StringValue (CacheControl o)) "")
  then <["Cache-Control" := [StringValue (ContentType o)]]> h4
  else <["Cache-Control" := ["max-age=60"]]> h4.

End Main.

(* ===================================================================== *)
(** ** A reference runtime and a sample bucket, for closed evaluations *)
(* ===================================================================== *)

(** The table package [mime] starts from; the system's files add to it. *)
Definition builtinTypesLower : gmap string string :=
  list_to_map
    [ (".css", "text/css; charset=utf-8");
      (".gif", "image/gif");
      (".htm", "text/html; charset=utf-8");
      (".html", "text/html; charset=utf-8");
      (".jpg", "image/jpeg");
      (".js", "application/x-javascript");
      (".pdf", "application/pdf");
      (".png", "image/png");
      (".xml", "text/xml; charset=utf-8") ].

(** The reference runtime: the stored-block gzip encoder, the built-in MIME
    table looked up as is, and for [DetectContentType] the answer Go gives
    when no signature matches. *)
Definition refRuntime : Runtime :=
  {| gzip := Gzip.compress;
     TypeByExtension := fun ext => default "" (builtinTypesLower !! ext);
     DetectContentType := fun _ => "application/octet-stream" |}.

Definition object (contentType cacheControl : option string)
    (reads : list (list byte)) : GetObjectOutput :=
  {| Body := {| reads := reads; readErr := None |};
     CacheControl := cacheControl;
     ContentLength := Some (Z.of_nat (length (concat reads)));
     ContentType := contentType;
     LastModified := None |}.

Definition metadata (o : GetObjectOutput) : HeadObjectOutput :=
  {| head_CacheControl := CacheControl o;
     head_ContentLength := ContentLength o;
     head_ContentType := ContentType o;
     head_LastModified := LastModified o |}.

Definition NotFound : error :=
  {| awsCode := Some "NotFound"; errText := "NotFound: Not Found" |}.

Definition NoSuchKey : error :=
  {| awsCode := Some "NoSuchKey";
     errText := "NoSuchKey: The specified key does not exist." |}.

Definition AccessDenied : error :=
  {| awsCode := Some "AccessDenied"; errText := "AccessDenied: Access Denied" |}.

Definition timeout : error :=
  {| awsCode := None; errText := "read tcp: i/o timeout" |}.

(** A bucket holding the listed objects; the key ["/locked"] answers every
    request with a permission error. *)
Definition bucketOf (objects : list (string * GetObjectOutput)) : S3 :=
  let m : gmap string GetObjectOutput := list_to_map objects in
  {| HeadObject := fun input =>
       if String.eqb (head_Key input) "/locked" then Err AccessDenied
       else match m !! head_Key input with
            | Some o => Ok (metadata o)
            | None => Err NotFound
            end;
     GetObject := fun input =>
       if String.eqb (get_Key input) "/locked" then Err AccessDenied
       else match m !! get_Key input with
            | Some o => Ok o
            | None => Err NoSuchKey
            end |}.

Definition bytes (s : string) : list byte := list_byte_of_string s.

Definition indexPage : GetObjectOutput :=
  object (Some "text/html") None [bytes "<html></html>"].

Definition emptyPage : GetObjectOutput := object (Some "text/html") None [].

Definition aboutPage : GetObjectOutput :=
  object (Some "text/html") None [bytes "about"].

Definition appJs : GetObjectOutput :=
  object (Some "application/javascript") None [bytes "var a;"; bytes "var b;"].

Definition cachedCss : GetObjectOutput :=
  object (Some "text/css") (Some "max-age=3600") [bytes "a{}"].

Definition dataFile : GetObjectOutput := object None None [bytes "x"].

(** An object whose body breaks off after three bytes. *)
Definition brokenTxt : GetObjectOutput :=
  {| Body := {| reads := [bytes "par"]; readErr := Some timeout |};
     CacheControl := None;
     ContentLength := Some 7;
     ContentType := Some "text/plain";
     LastModified := None |}.

Definition site : S3Website :=
  NewS3Website
    (bucketOf
       [ ("/index.html", indexPage);
         ("/empty.html", emptyPage);
         ("/about/index.html", aboutPage);
         ("/app.js", appJs);
         ("/cached.css", cachedCss);
         ("/data", dataFile);
         ("/broken.txt", brokenTxt) ])
    "example-bucket".

Definition request (path : string) (acceptEncoding : option string) : Request :=
  {| URL_Path := path;
     req_Header :=
       match acceptEncoding with
       | Some v => {[ "Accept-Encoding" := [v] ]}
       | None => ∅
       end |}.

(* ===================================================================== *)
(** ** Vocabulary of the statements *)
(* ===================================================================== *)

Definition headInput (s : S3Website) (key : string) : HeadObjectInput :=
  {| head_Bucket := bucket s; head_Key := key |}.

Definition getInput (s : S3Website) (key : string) : GetObjectInput :=
  {| get_Bucket := bucket s; get_Key := key |}.

(** The bytes of the stored object: everything its reader delivers. *)
Definition objectBytes (o : GetObjectOutput) : list byte :=
  concat (reads (Body o)).

(** The content-type [serveFile] of the package resolves: the store's, or
    else the one of the key's extension. *)
Definition resolvedContentType (rt : Runtime) (key : string)
    (o : GetObjectOutput) : string :=
  let fileContentType :=
    match ContentType o with
    | Some contentType => contentType
    | None => ""
    end in
  if String.eqb fileContentType ""
  then TypeByExtension rt (Ext key) else fileContentType.

(** The comma-separated tokens of the request's Accept-Encoding header. *)
Definition acceptEncodingTokens (req : Request) : list string :=
  Split (headerGet (req_Header req) "accept-encoding") ",".

(** The ETag of a digest: quoted base64. *)
Definition etagOf (enc : Base64.Encoding) (sum : list byte) : string :=
  quote ++ Base64.EncodeToString enc sum ++ quote.

(** The final state of a run. *)
Definition run (m : M unit) (w : World) : World := snd (m w).

(** The calls that write the response, in order. *)
Definition responses (w : World) : list Event := List.filter isHttp (trace w).

(** The header map [serveFile] of the package has built when it calls
    [http.ServeContent], from the map [h] it started with. *)
Definition servedHeader (rt : Runtime) (req : Request) (key : string)
    (o : GetObjectOutput) (h : Header) : Header :=
  let ct := resolvedContentType rt key o in
  let h1 := if negb (String.eqb ct "") then <["Content-Type" := [ct]]> h else h in
  let h2 := <["Etag" := [etagOf base64Encoding (Sha256.Sum (objectBytes o))]]> h1 in
  let h3 :=
    if compressable (hd "" (Split ct ";")) && acceptEncodingGzip req
    then <["Vary" := ["accept-encoding"]]> (<["Content-Encoding" := ["gzip"]]> h2)
    else h2 in
  let h4 := <["Content-Type" := [ct]]> h3 in
  if negb (String.eqb (StringValue (CacheControl o)) "")
  then <["Cache-Control" := [StringValue (ContentType o)]]> h4
  else <["Cache-Control" := ["max-age=60"]]> h4.

(** The bytes [serveFile] of the package hands to [http.ServeContent]. *)
Definition servedContent (rt : Runtime) (req : Request) (key : string)
    (o : GetObjectOutput) : list byte :=
  if compressable (hd "" (Split (resolvedContentType rt key o) ";"))
     && acceptEncodingGzip req
  then gzip rt (objectBytes o) else objectBytes o.

(** Whether a byte occurs in a string. *)
Fixpoint hasByte (c : ascii) (s : string) : bool :=
  match s with
  | EmptyString => false
  | String a s' => Ascii.eqb a c || hasByte c s'
  end.

(** A token carries a parameter when it holds a semicolon; it mentions
    gzip when the word occurs in it. *)
Definition hasParameter (token : string) : Prop := hasByte ";" token = true.

Definition mentionsGzip (token : string) : Prop :=
  exists pre post, token = pre ++ "gzip" ++ post.

(** What an existence check can answer: the object's metadata, the store's
    explicit absence signal, or a failure. *)
Definition objectExists (s : S3Website) (key : string) : Prop :=
  exists m, HeadObject (client s) (headInput s key) = Ok m.

Definition objectAbsent (s : S3Website) (key : string) : Prop :=
  exists e, HeadObject (client s) (headInput s key) = Err e
            /\ hasAwsCode e "NotFound" = true.

Definition checkFails (s : S3Website) (key : string) (e : error) : Prop :=
  HeadObject (client s) (headInput s key) = Err e
  /\ hasAwsCode e "NotFound" = false.

(** The key [ServeHTTP] hands to [serveFile] for a request. *)
Definition resolvesTo (s : S3Website) (req : Request) (key : string) : Prop :=
  (HasSuffix (URL_Path req) "/" = true
   /\ key = URL_Path req ++ "index.html")
  \/ (HasSuffix (URL_Path req) "/" = false
      /\ objectExists s (URL_Path req) /\ key = URL_Path req).

Definition isHead (e : Event) : bool :=
  match e with
  | S3HeadObject _ => true
  | _ => false
  end.

(* ===================================================================== *)
(** ** package main: configuration

    [init] registers the flags, [flag.Parse] fills the [config] struct from
    the command line, and [main] completes it from the environment before
    it builds the handler.  The struct after [flag.Parse] holds, per flag,
    the value given on the command line or the default [init] registered;
    the environment is a finite map and [os.Getenv] reads a missing
    variable as the empty string. *)
(* ===================================================================== *)

Record Config := {
  cfg_addr : string;
  cfg_profile : string;
  cfg_region : string;
  cfg_bucket : string
}.

(** The defaults [init] registers. *)
Definition flagDefaults : Config :=
  {| cfg_addr := "127.0.0.1:8080";
     cfg_profile := "";
     cfg_region := "";
     cfg_bucket := "" |}.

(** [os.Getenv] *)
Definition Getenv (env : gmap string string) (key : string) : string :=
  default "" (env !! key).

Definition getenv (env : gmap string string) (p : string)
    (key defaultValue : string) : string :=
  if negb (String.eqb p "") then p
  else
    let value := Getenv env key in
    if negb (String.eqb value "") then value
    else defaultValue.

(** The three assignments at the head of [main]. *)
Definition configure (env : gmap string string) (config : Config) : Config :=
  {| cfg_addr := cfg_addr config;
     cfg_profile := getenv env (cfg_profile config) "AWS_PROFILE" "default";
     cfg_region := getenv env (cfg_region config) "AWS_REGION" "us-east-1";
     cfg_bucket := getenv env (cfg_bucket config) "AWS_BUCKET" "" |}.

(** What [main] hands to [http.ListenAndServe]: the address and the
    handler, over the client [s3.New] returned for the session. *)
Definition listenArguments (env : gmap string string) (config : Config)
    (c : S3) : string * S3Website :=
  let config := configure env config in
  (cfg_addr config, NewS3Website c (cfg_bucket config)).

(* ===================================================================== *)
(** ** More vocabulary *)
(* ===================================================================== *)

Definition isGet (e : Event) : bool :=
  match e with
  | S3GetObject _ => true
  | _ => false
  end.

Definition isRedirect (e : Event) : bool :=
  match e with
  | HttpRedirect _ _ => true
  | _ => false
  end.

Definition isServeContent (e : Event) : bool :=
  match e with
  | HttpServeContent _ _ _ => true
  | _ => false
  end.

(** The bucket and the key an S3 request names. *)
Definition s3Target (e : Event) : option (string * string) :=
  match e with
  | S3HeadObject input => Some (head_Bucket input, head_Key input)
  | S3GetObject input => Some (get_Bucket input, get_Key input)
  | _ => None
  end.

(** A string of ASCII blanks: tab, line feed, vertical tab, form feed,
    carriage return, space. *)
Fixpoint blank (s : string) : bool :=
  match s with
  | EmptyString => true
  | String a s' => isSpace1 a && blank s'
  end.

(** A request whose first Accept-Encoding line is [value]. *)
Definition acceptEncodingIs (req : Request) (value : string) : Prop :=
  exists more, req_Header req !! "Accept-Encoding" = Some (value :: more).

(* ===================================================================== *)
(** ** More sample data *)
(* ===================================================================== *)

(** A bucket that answers each request with the absence code of the
    other one, and a bucket whose objects are gone when they are fetched. *)
Definition swapped : S3Website :=
  NewS3Website
    {| HeadObject := fun _ => Err NoSuchKey;
       GetObject := fun _ => Err NotFound |}
    "example-bucket".

Definition vanishing : S3Website :=
  NewS3Website
    {| HeadObject := fun _ => Ok (metadata indexPage);
       GetObject := fun _ => Err NoSuchKey |}
    "example-bucket".

(** The script of the sample bucket delivered in one read, and a page
    stored with a charset parameter. *)
Definition appJsWhole : GetObjectOutput :=
  object (Some "application/javascript") None [bytes "var a;var b;"].

Definition htmlUtf8 : GetObjectOutput :=
  object (Some "text/html; charset=utf-8") None [bytes "<p>"].

Definition mirror : S3Website :=
  NewS3Website
    (bucketOf [ ("/app.js", appJsWhole); ("/page.html", htmlUtf8) ])
    "mirror-bucket".

(** An environment with a bucket and an empty region, and a command line
    that gives every flag. *)
Definition environment : gmap string string :=
  {[ "AWS_BUCKET" := "example-bucket"; "AWS_REGION" := "" ]}.

Definition commandLine : Config :=
  {| cfg_addr := ":80";
     cfg_profile := "work";
     cfg_region := "eu-west-1";
     cfg_bucket := "site" |}.

(* ===================================================================== *)
(** ** Running the handler *)
(* ===================================================================== *)

Lemma wc_Write_nil wc : wc_Write wc [] = wc.
Proof. destruct wc; simpl; by rewrite app_nil_r. Qed.

Lemma wc_Write_app wc p q : wc_Write (wc_Write wc p) q = wc_Write wc (p ++ q).
Proof. destruct wc; simpl; by rewrite app_assoc. Qed.

(** [io.Copy] hands both writers the concatenation of the reads. *)
Lemma io_Copy_writes (src : Reader) (wc : WriteCloser) (h : Hash) :
  io_Copy (wc, h) src
  = ((wc_Write wc (concat (reads src)), (h ++ concat (reads src))%list),
     readErr src).
Proof.
  unfold io_Copy. f_equal.
  generalize dependent h. generalize dependent wc.
  induction (reads src) as [|p ps IH]; intros wc h; simpl.
  - by rewrite wc_Write_nil, app_nil_r.
  - change (MultiWriter_Write (wc, h) p) with (wc_Write wc p, (h ++ p)%list).
    by rewrite IH, wc_Write_app, app_assoc.
Qed.

(** Unfold the monad's operations and the [net/http] helpers, without
    touching the digests. *)
Ltac monad :=
  unfold http_NotFound, http_Error, http_Redirect, http_ServeContent,
    call_GetObject, call_HeadObject, Header_Set, Header_Get, headerSet,
    bind, ret, emit;
  cbn beta iota; cbn [fst snd header trace].

Lemma canonical_etag : CanonicalMIMEHeaderKey "etag" = "Etag".
Proof. reflexivity. Qed.
Lemma canonical_content_type : CanonicalMIMEHeaderKey "content-type" = "Content-Type".
Proof. reflexivity. Qed.
Lemma canonical_content_encoding :
  CanonicalMIMEHeaderKey "content-encoding" = "Content-Encoding".
Proof. reflexivity. Qed.
Lemma canonical_vary : CanonicalMIMEHeaderKey "vary" = "Vary".
Proof. reflexivity. Qed.
Lemma canonical_cache_control :
  CanonicalMIMEHeaderKey "cache-control" = "Cache-Control".
Proof. reflexivity. Qed.
Lemma canonical_accept_encoding :
  CanonicalMIMEHeaderKey "accept-encoding" = "Accept-Encoding".
Proof. reflexivity. Qed.

Create Rewrite HintDb canonical.
#[export] Hint Rewrite canonical_etag canonical_content_type
  canonical_content_encoding canonical_vary canonical_cache_control
  canonical_accept_encoding : canonical.

Section ServeFile.

Variable rt : Runtime.
Variable s : S3Website.
Variable req : Request.
Variable key : string.
Variable w : World.

(** The store signals absence: 404 after the fetch. *)
Lemma serveFile_absent (e : error) :
  GetObject (client s) (getInput s key) = Err e ->
  hasAwsCode e "NoSuchKey" = true ->
  serveFile rt s req key w
  = (tt, {| header := header w;
            trace := trace w ++ [S3GetObject (getInput s key);
                                 HttpError "404 page not found" 404] |}).
Proof.
  intros Hget Hcode.
  unfold serveFile, getObject. monad.
  fold (getInput s key). rewrite Hget. monad. rewrite Hcode. monad.
  by rewrite <- app_assoc.
Qed.

(** Any other failure of the fetch: 500. *)
Lemma serveFile_fetch_error (e : error) :
  GetObject (client s) (getInput s key) = Err e ->
  hasAwsCode e "NoSuchKey" = false ->
  serveFile rt s req key w
  = (tt, {| header := header w;
            trace := trace w ++ [S3GetObject (getInput s key);
                                 HttpError (errText e) 500] |}).
Proof.
  intros Hget Hcode.
  unfold serveFile, getObject. monad.
  fold (getInput s key). rewrite Hget. monad. rewrite Hcode. monad.
  by rewrite <- app_assoc.
Qed.

(** The object is fetched but its body cannot be read to the end: 500,
    and of the headers only Content-Type has been touched. *)
Lemma serveFile_read_error (o : GetObjectOutput) (e : error) :
  GetObject (client s) (getInput s key) = Ok o ->
  readErr (Body o) = Some e ->
  serveFile rt s req key w
  = (tt, {| header :=
              (let ct := resolvedContentType rt key o in
               if negb (String.eqb ct "")
               then <["Content-Type" := [ct]]> (header w) else header w);
            trace := trace w ++ [S3GetObject (getInput s key);
                                 HttpError (errText e) 500] |}).
Proof.
  intros Hget Hread.
  unfold serveFile, getObject. monad.
  fold (getInput s key). rewrite Hget. monad.
  fold (resolvedContentType rt key o).
  rewrite io_Copy_writes, Hread.
  destruct (negb (String.eqb (resolvedContentType rt key o) ""));
    monad; autorewrite with canonical; by rewrite <- app_assoc.
Qed.

(** The object is fetched and read to the end: it is served. *)
Lemma serveFile_served (o : GetObjectOutput) :
  GetObject (client s) (getInput s key) = Ok o ->
  readErr (Body o) = None ->
  serveFile rt s req key w
  = (tt, {| header := servedHeader rt req key o (header w);
            trace := trace w ++ [S3GetObject (getInput s key);
                                 HttpServeContent key
                                   (TimeValue (LastModified o))
                                   (servedContent rt req key o)] |}).
Proof.
  intros Hget Hread.
  unfold serveFile, getObject. monad.
  fold (getInput s key). rewrite Hget. monad.
  fold (resolvedContentType rt key o).
  rewrite io_Copy_writes, Hread.
  unfold servedHeader, servedContent. fold (objectBytes o).
  destruct (ContentLength o);
    destruct (negb (String.eqb (resolvedContentType rt key o) ""));
    destruct (compressable (hd "" (Split (resolvedContentType rt key o) ";"))
              && acceptEncodingGzip req);
    destruct (negb (String.eqb (StringValue (CacheControl o)) ""));
    monad; unfold etagOf, wc_Close, wc_Write; cbn iota;
    autorewrite with canonical; rewrite <- app_assoc, ?app_nil_l;
    reflexivity.
Qed.

End ServeFile.

(* ===================================================================== *)
(** ** The headers of a served object *)
(* ===================================================================== *)

Ltac header_lookup :=
  repeat first
    [ rewrite lookup_insert_eq
    | rewrite lookup_insert_ne by discriminate ];
  try reflexivity.

Section ServedHeader.

Variable rt : Runtime.
Variable req : Request.
Variable key : string.
Variable o : GetObjectOutput.
Variable h : Header.

Lemma servedHeader_etag :
  servedHeader rt req key o h !! "Etag"
  = Some [etagOf base64Encoding (Sha256.Sum (objectBytes o))].
Proof.
  unfold servedHeader.
  repeat match goal with |- context [if ?b then _ else _] => destruct b end;
    header_lookup.
Qed.

Lemma servedHeader_content_type :
  servedHeader rt req key o h !! "Content-Type"
  = Some [resolvedContentType rt key o].
Proof.
  unfold servedHeader.
  repeat match goal with |- context [if ?b then _ else _] => destruct b end;
    header_lookup.
Qed.

Lemma servedHeader_cache_control :
  servedHeader rt req key o h !! "Cache-Control"
  = Some [if negb (String.eqb (StringValue (CacheControl o)) "")
          then StringValue (ContentType o) else "max-age=60"].
Proof.
  unfold servedHeader.
  repeat match goal with |- context [if ?b then _ else _] => destruct b end;
    header_lookup.
Qed.

Lemma servedHeader_content_encoding :
  servedHeader rt req key o h !! "Content-Encoding"
  = if compressable (hd "" (Split (resolvedContentType rt key o) ";"))
       && acceptEncodingGzip req
    then Some ["gzip"] else h !! "Content-Encoding".
Proof.
  unfold servedHeader.
  repeat match goal with |- context [if ?b then _ else _] => destruct b end;
    header_lookup.
Qed.

Lemma servedHeader_vary :
  servedHeader rt req key o h !! "Vary"
  = if compressable (hd "" (Split (resolvedContentType rt key o) ";"))
       && acceptEncodingGzip req
    then Some ["accept-encoding"] else h !! "Vary".
Proof.
  unfold servedHeader.
  repeat match goal with |- context [if ?b then _ else _] => destruct b end;
    header_lookup.
Qed.

End ServedHeader.

(* ===================================================================== *)
(** ** Trimming removes white space only *)
(* ===================================================================== *)

Lemma append_String a s t : String a s ++ t = String a (s ++ t).
Proof. reflexivity. Qed.

Lemma append_nil_r s : s ++ "" = s.
Proof. induction s as [|a s IH]; [done|]. by rewrite append_String, IH. Qed.

Lemma append_assoc s t u : (s ++ t) ++ u = s ++ t ++ u.
Proof. induction s as [|a s IH]; [done|]. by rewrite !append_String, IH. Qed.

Lemma hasByte_app c s t : hasByte c (s ++ t) = hasByte c s || hasByte c t.
Proof.
  induction s as [|a s IH]; [done|].
  rewrite append_String. simpl. by rewrite IH, orb_assoc.
Qed.

Lemma rev_app_spec s t : String.rev_app s t = String.rev s ++ t.
Proof.
  unfold String.rev. revert t.
  induction s as [|a s IH]; intros t; [done|].
  cbn [String.rev_app]. rewrite IH, (IH (String a "")).
  by rewrite append_assoc.
Qed.

Lemma rev_String a s : String.rev (String a s) = String.rev s ++ String a "".
Proof. unfold String.rev at 1. cbn [String.rev_app]. apply rev_app_spec. Qed.

Lemma rev_app s t : String.rev (s ++ t) = String.rev t ++ String.rev s.
Proof.
  induction s as [|a s IH].
  - change ("" ++ t) with t. change (String.rev "") with "".
    by rewrite append_nil_r.
  - by rewrite append_String, !rev_String, IH, append_assoc.
Qed.

Lemma rev_involutive s : String.rev (String.rev s) = s.
Proof.
  induction s as [|a s IH]; [done|].
  by rewrite rev_String, rev_app, IH.
Qed.

Lemma hasByte_rev c s : hasByte c (String.rev s) = hasByte c s.
Proof.
  induction s as [|a s IH]; [done|].
  rewrite rev_String, hasByte_app, IH. simpl.
  rewrite orb_false_r. apply orb_comm.
Qed.

Lemma isSpace1_semicolon a : isSpace1 a = true -> Ascii.eqb a ";" = false.
Proof.
  destruct (Ascii.eqb a ";") eqn:E; [|done].
  apply Ascii.eqb_eq in E. by subst.
Qed.

Lemma isSpace2_semicolon a b :
  isSpace2 a b = true -> Ascii.eqb a ";" = false /\ Ascii.eqb b ";" = false.
Proof.
  intros H. split.
  - destruct (Ascii.eqb a ";") eqn:E; [|done].
    apply Ascii.eqb_eq in E. by subst.
  - destruct (Ascii.eqb b ";") eqn:E; [|done].
    apply Ascii.eqb_eq in E. subst. unfold isSpace2 in H.
    cbn in H. by rewrite andb_false_r in H.
Qed.

Lemma isSpace3_semicolon a b c :
  isSpace3 a b c = true ->
  Ascii.eqb a ";" = false /\ Ascii.eqb b ";" = false /\ Ascii.eqb c ";" = false.
Proof.
  intros H. repeat split.
  - destruct (Ascii.eqb a ";") eqn:E; [|done].
    apply Ascii.eqb_eq in E. by subst.
  - destruct (Ascii.eqb b ";") eqn:E; [|done].
    apply Ascii.eqb_eq in E. subst. unfold isSpace3 in H. cbn in H.
    by rewrite !andb_false_r in H.
  - destruct (Ascii.eqb c ";") eqn:E; [|done].
    apply Ascii.eqb_eq in E. subst. unfold isSpace3 in H. cbn in H.
    by rewrite !andb_false_r in H.
Qed.

Lemma TrimLeftSpace_spec (n : nat) (s : string) :
  (String.length s <= n)%nat ->
  exists pre, s = pre ++ TrimLeftSpace s /\ hasByte ";" pre = false.
Proof.
  revert s. induction n as [|n IH]; intros s Hlen.
  - destruct s; [by exists "" | simpl in Hlen; lia].
  - destruct s as [|a s1]; [by exists ""|].
    cbn [TrimLeftSpace]. destruct (isSpace1 a) eqn:E1.
    { destruct (IH s1) as (pre & Heq & Hpre); [simpl in Hlen; lia|].
      exists (String a pre). rewrite append_String, <- Heq. split; [done|].
      simpl. by rewrite (isSpace1_semicolon _ E1). }
    destruct s1 as [|b s2]; [by exists ""|].
    destruct (isSpace2 a b) eqn:E2.
    { destruct (IH s2) as (pre & Heq & Hpre); [simpl in Hlen; lia|].
      destruct (isSpace2_semicolon _ _ E2) as [Ha Hb].
      exists (String a (String b pre)).
      rewrite !append_String, <- Heq. split; [done|].
      simpl. by rewrite Ha, Hb. }
    destruct s2 as [|c s3]; [by exists ""|].
    destruct (isSpace3 a b c) eqn:E3; [|by exists ""].
    destruct (IH s3) as (pre & Heq & Hpre); [simpl in Hlen; lia|].
    destruct (isSpace3_semicolon _ _ _ E3) as (Ha & Hb & Hc).
    exists (String a (String b (String c pre))).
    rewrite !append_String, <- Heq. split; [done|].
    simpl. by rewrite Ha, Hb, Hc.
Qed.

Lemma TrimLeftSpaceRev_spec (n : nat) (r : string) :
  (String.length r <= n)%nat ->
  exists pre, r = pre ++ TrimLeftSpaceRev r /\ hasByte ";" pre = false.
Proof.
  revert r. induction n as [|n IH]; intros r Hlen.
  - destruct r; [by exists "" | simpl in Hlen; lia].
  - destruct r as [|a r1]; [by exists ""|].
    cbn [TrimLeftSpaceRev]. destruct (isSpace1 a) eqn:E1.
    { destruct (IH r1) as (pre & Heq & Hpre); [simpl in Hlen; lia|].
      exists (String a pre). rewrite append_String, <- Heq. split; [done|].
      simpl. by rewrite (isSpace1_semicolon _ E1). }
    destruct r1 as [|b r2]; [by exists ""|].
    destruct (isSpace2 b a) eqn:E2.
    { destruct (IH r2) as (pre & Heq & Hpre); [simpl in Hlen; lia|].
      destruct (isSpace2_semicolon _ _ E2) as [Hb Ha].
      exists (String a (String b pre)).
      rewrite !append_String, <- Heq. split; [done|].
      simpl. by rewrite Ha, Hb. }
    destruct r2 as [|c r3]; [by exists ""|].
    destruct (isSpace3 c b a) eqn:E3; [|by exists ""].
    destruct (IH r3) as (pre & Heq & Hpre); [simpl in Hlen; lia|].
    destruct (isSpace3_semicolon _ _ _ E3) as (Hc & Hb & Ha).
    exists (String a (String b (String c pre))).
    rewrite !append_String, <- Heq. split; [done|].
    simpl. by rewrite Ha, Hb, Hc.
Qed.

(** [TrimSpace] cuts a prefix and a suffix off its argument, and neither
    holds a semicolon. *)
Lemma TrimSpace_spec (s : string) :
  exists pre post,
    s = pre ++ TrimSpace s ++ post
    /\ hasByte ";" pre = false /\ hasByte ";" post = false.
Proof.
  unfold TrimSpace, TrimRightSpace.
  destruct (TrimLeftSpace_spec (String.length s) s) as (pre & Hs & Hpre);
    [lia|].
  set (t := TrimLeftSpace s) in *.
  destruct (TrimLeftSpaceRev_spec (String.length (String.rev t)) (String.rev t))
    as (p2 & Ht & Hp2); [lia|].
  exists pre, (String.rev p2). repeat split; [|done|by rewrite hasByte_rev].
  rewrite <- rev_app, <- Ht, rev_involutive. exact Hs.
Qed.

(** A token with a parameter attached never trims to ["gzip"]. *)
Lemma parameter_not_gzip (token : string) :
  hasByte ";" token = true -> TrimSpace token <> "gzip".
Proof.
  intros Hpar Htrim.
  destruct (TrimSpace_spec token) as (pre & post & Heq & Hpre & Hpost).
  rewrite Heq, Htrim, !hasByte_app, Hpre, Hpost in Hpar. discriminate.
Qed.

(** A token that trims to ["gzip"] holds the word. *)
Lemma gzip_token_mentions (token : string) :
  TrimSpace token = "gzip" ->
  exists pre post, token = pre ++ "gzip" ++ post.
Proof.
  intros Htrim.
  destruct (TrimSpace_spec token) as (pre & post & Heq & _).
  exists pre, post. by rewrite <- Htrim.
Qed.

(* ===================================================================== *)
(** ** Content negotiation *)
(* ===================================================================== *)

Lemma compressable_member (mediaType : string) :
  compressable mediaType = true
  <-> compressableContentTypes !! mediaType = Some true.
Proof.
  unfold compressable.
  destruct (compressableContentTypes !! mediaType) as [[]|]; simpl;
    split; congruence.
Qed.

Lemma acceptEncodingGzip_token (req : Request) :
  acceptEncodingGzip req = true
  <-> exists token, In token (acceptEncodingTokens req)
                    /\ TrimSpace token = "gzip".
Proof.
  unfold acceptEncodingGzip. fold (acceptEncodingTokens req).
  rewrite existsb_exists. split; intros (token & Hin & Htok); exists token;
    (split; [done|]); by apply String.eqb_eq.
Qed.

Lemma no_accept_encoding (req : Request) :
  req_Header req !! "Accept-Encoding" = None -> acceptEncodingGzip req = false.
Proof.
  intros Hnone. unfold acceptEncodingGzip, headerGet.
  by rewrite canonical_accept_encoding, Hnone.
Qed.

Lemma run_served (rt : Runtime) (s : S3Website) (req : Request)
    (key : string) (o : GetObjectOutput) :
  GetObject (client s) (getInput s key) = Ok o ->
  readErr (Body o) = None ->
  run (serveFile rt s req key) emptyWorld
  = {| header := servedHeader rt req key o ∅;
       trace := [S3GetObject (getInput s key);
                 HttpServeContent key (TimeValue (LastModified o))
                   (servedContent rt req key o)] |}.
Proof.
  intros Hget Hread. unfold run.
  by rewrite (serveFile_served rt s req key emptyWorld o Hget Hread).
Qed.

(** C3. For every served object and request, the body is gzip-compressed
    if and only if (a) the resolved content-type, cut at its first
    semicolon, is in the table of compressible types and (b) some
    comma-separated token of the request's Accept-Encoding header trims to
    exactly gzip.  When both hold the response carries Content-Encoding:
    gzip and Vary: accept-encoding; otherwise the body is the object's
    bytes and neither header is set. *)
Theorem compression_exactly_when_negotiated (rt : Runtime) (s : S3Website)
    (req : Request) (key : string) (o : GetObjectOutput) :
  GetObject (client s) (getInput s key) = Ok o ->
  readErr (Body o) = None ->
  let w' := run (serveFile rt s req key) emptyWorld in
  let eligible :=
    compressableContentTypes
      !! hd "" (Split (resolvedContentType rt key o) ";") = Some true in
  let accepted :=
    exists token, In token (acceptEncodingTokens req)
                  /\ TrimSpace token = "gzip" in
  (eligible /\ accepted ->
     responses w' = [HttpServeContent key (TimeValue (LastModified o))
                       (gzip rt (objectBytes o))]
     /\ header w' !! "Content-Encoding" = Some ["gzip"]
     /\ header w' !! "Vary" = Some ["accept-encoding"])
  /\ (~ (eligible /\ accepted) ->
     responses w' = [HttpServeContent key (TimeValue (LastModified o))
                       (objectBytes o)]
     /\ header w' !! "Content-Encoding" = None
     /\ header w' !! "Vary" = None).
Proof.
  intros Hget Hread w' eligible accepted. subst w'.
  rewrite (run_served rt s req key o Hget Hread).
  unfold responses. cbn [trace header List.filter isHttp].
  rewrite servedHeader_content_encoding, servedHeader_vary.
  unfold servedContent.
  destruct (compressable (hd "" (Split (resolvedContentType rt key o) ";"))
            && acceptEncodingGzip req) eqn:Hgz.
  - split; [intros _; repeat split; reflexivity|].
    intros Hnot. exfalso. apply Hnot.
    apply andb_true_iff in Hgz as [Hc Ha].
    split; [apply compressable_member, Hc | apply acceptEncodingGzip_token, Ha].
  - split; [|intros _; repeat split; reflexivity].
    intros [Hc Ha].
    apply compressable_member in Hc. apply acceptEncodingGzip_token in Ha.
    apply andb_false_iff in Hgz as [Hgz|Hgz]; congruence.
Qed.

(** C9. Two constructions of a response on the same object bytes, both for
    requests without an Accept-Encoding header, carry the same ETag: the
    quoted digest of the bytes that are transmitted. *)
Theorem etag_deterministic (rt : Runtime) (s1 s2 : S3Website)
    (req1 req2 : Request) (key1 key2 : string) (o1 o2 : GetObjectOutput) :
  GetObject (client s1) (getInput s1 key1) = Ok o1 ->
  readErr (Body o1) = None ->
  GetObject (client s2) (getInput s2 key2) = Ok o2 ->
  readErr (Body o2) = None ->
  objectBytes o1 = objectBytes o2 ->
  req_Header req1 !! "Accept-Encoding" = None ->
  req_Header req2 !! "Accept-Encoding" = None ->
  let w1 := run (serveFile rt s1 req1 key1) emptyWorld in
  let w2 := run (serveFile rt s2 req2 key2) emptyWorld in
  header w1 !! "Etag" = header w2 !! "Etag"
  /\ header w1 !! "Etag"
     = Some [etagOf base64Encoding (Sha256.Sum (objectBytes o1))]
  /\ responses w1 = [HttpServeContent key1 (TimeValue (LastModified o1))
                       (objectBytes o1)]
  /\ responses w2 = [HttpServeContent key2 (TimeValue (LastModified o2))
                       (objectBytes o2)].
Proof.
  intros Hget1 Hread1 Hget2 Hread2 Hbytes Hae1 Hae2 w1 w2. subst w1 w2.
  rewrite (run_served rt s1 req1 key1 o1 Hget1 Hread1),
          (run_served rt s2 req2 key2 o2 Hget2 Hread2).
  unfold responses, servedContent. cbn [trace header List.filter isHttp].
  rewrite !servedHeader_etag, Hbytes.
  rewrite (no_accept_encoding req1 Hae1), (no_accept_encoding req2 Hae2).
  by rewrite !andb_false_r.
Qed.

(** C10. When every Accept-Encoding token that mentions gzip carries a
    parameter (gzip;q=1.0, gzip;q=0), the acceptance test is false and the
    object is served uncompressed, whatever its content-type. *)
Theorem gzip_with_parameter_not_accepted (rt : Runtime) (s : S3Website)
    (req : Request) (key : string) (o : GetObjectOutput) :
  (forall token, In token (acceptEncodingTokens req) ->
                 mentionsGzip token -> hasParameter token) ->
  GetObject (client s) (getInput s key) = Ok o ->
  readErr (Body o) = None ->
  let w' := run (serveFile rt s req key) emptyWorld in
  acceptEncodingGzip req = false
  /\ responses w' = [HttpServeContent key (TimeValue (LastModified o))
                       (objectBytes o)]
  /\ header w' !! "Content-Encoding" = None
  /\ header w' !! "Vary" = None.
Proof.
  intros Hpar Hget Hread w'. subst w'.
  assert (Hno : acceptEncodingGzip req = false).
  { destruct (acceptEncodingGzip req) eqn:Ha; [|done].
    apply acceptEncodingGzip_token in Ha as (token & Hin & Htrim).
    exfalso. apply (parameter_not_gzip token); [|done].
    apply Hpar; [done|]. by apply gzip_token_mentions. }
  split; [done|].
  rewrite (run_served rt s req key o Hget Hread).
  unfold responses, servedContent. cbn [trace header List.filter isHttp].
  rewrite servedHeader_content_encoding, servedHeader_vary, Hno.
  by rewrite !andb_false_r.
Qed.

(* ===================================================================== *)
(** ** Resolution *)
(* ===================================================================== *)

Section Resolution.

Variable rt : Runtime.
Variable s : S3Website.
Variable req : Request.

Lemma headObject_found (key : string) (w : World) :
objectExists s key ->
exists m, headObject s key w
          = ((Some m, None),
             {| header := header w;
                trace := trace w ++ [S3HeadObject (headInput s key)] |}).
Proof.
intros [m Hm]. exists m. unfold headObject. monad.
fold (headInput s key). by rewrite Hm.
Qed.

Lemma headObject_absent (key : string) (w : World) :
objectAbsent s key ->
headObject s key w
= ((None, None),
   {| header := header w;
      trace := trace w ++ [S3HeadObject (headInput s key)] |}).
Proof.
intros (e & He & Hcode). unfold headObject. monad.
fold (headInput s key). rewrite He. monad. by rewrite Hcode.
Qed.

Lemma headObject_fails (key : string) (e : error) (w : World) :
checkFails s key e ->
headObject s key w
= ((None, Some e),
   {| header := header w;
      trace := trace w ++ [S3HeadObject (headInput s key)] |}).
Proof.
intros [He Hcode]. unfold headObject. monad.
fold (headInput s key). rewrite He. monad. by rewrite Hcode.
Qed.

(** A path with a trailing slash goes straight to [serveFile]. *)
Lemma ServeHTTP_slash (w : World) :
HasSuffix (URL_Path req) "/" = true ->
ServeHTTP rt s req w = serveFile rt s req (URL_Path req ++ "index.html") w.
Proof. intros Hslash. unfold ServeHTTP. cbn zeta. by rewrite Hslash. Qed.

Lemma ServeHTTP_found (w : World) :
HasSuffix (URL_Path req) "/" = false ->
objectExists s (URL_Path req) ->
ServeHTTP rt s req w
= serveFile rt s req (URL_Path req)
    {| header := header w;
       trace := trace w ++ [S3HeadObject (headInput s (URL_Path req))] |}.
Proof.
intros Hslash Hex. unfold ServeHTTP. cbn zeta. rewrite Hslash.
destruct (headObject_found _ w Hex) as [m Hm].
unfold bind at 1. by rewrite Hm.
Qed.

Lemma ServeHTTP_check_fails (w : World) (e : error) :
HasSuffix (URL_Path req) "/" = false ->
checkFails s (URL_Path req) e ->
ServeHTTP rt s req w
= (tt, {| header := header w;
          trace := trace w ++ [S3HeadObject (headInput s (URL_Path req));
                               HttpError (errText e) 500] |}).
Proof.
intros Hslash Hfail. unfold ServeHTTP. cbn zeta. rewrite Hslash.
unfold bind at 1. rewrite (headObject_fails _ e w Hfail). monad.
by rewrite <- app_assoc.
Qed.

Lemma ServeHTTP_redirect (w : World) :
HasSuffix (URL_Path req) "/" = false ->
objectAbsent s (URL_Path req) ->
objectExists s (URL_Path req ++ "/index.html") ->
ServeHTTP rt s req w
= (tt, {| header := header w;
          trace := trace w
                   ++ [S3HeadObject (headInput s (URL_Path req));
                       S3HeadObject
                         (headInput s (URL_Path req ++ "/index.html"));
                       HttpRedirect (URL_Path req ++ "/") 302] |}).
Proof.
intros Hslash Habs Hex. unfold ServeHTTP. cbn zeta. rewrite Hslash.
unfold bind at 1. rewrite (headObject_absent _ w Habs). cbn iota.
destruct (headObject_found _
            {| header := header w;
               trace := trace w
                        ++ [S3HeadObject (headInput s (URL_Path req))] |}
            Hex) as [m Hm].
unfold bind at 1. rewrite Hm. monad. by rewrite <- !app_assoc.
Qed.

Lemma ServeHTTP_not_found (w : World) :
HasSuffix (URL_Path req) "/" = false ->
objectAbsent s (URL_Path req) ->
objectAbsent s (URL_Path req ++ "/index.html") ->
ServeHTTP rt s req w
= (tt, {| header := header w;
          trace := trace w
                   ++ [S3HeadObject (headInput s (URL_Path req));
                       S3HeadObject
                         (headInput s (URL_Path req ++ "/index.html"));
                       HttpError "404 page not found" 404] |}).
Proof.
intros Hslash Habs Habs2. unfold ServeHTTP. cbn zeta. rewrite Hslash.
unfold bind at 1. rewrite (headObject_absent _ w Habs). cbn iota.
unfold bind at 1. rewrite (headObject_absent _ _ Habs2). monad.
by rewrite <- !app_assoc.
Qed.

Lemma ServeHTTP_second_check_fails (w : World) (e : error) :
HasSuffix (URL_Path req) "/" = false ->
objectAbsent s (URL_Path req) ->
checkFails s (URL_Path req ++ "/index.html") e ->
ServeHTTP rt s req w
= (tt, {| header := header w;
          trace := trace w
                   ++ [S3HeadObject (headInput s (URL_Path req));
                       S3HeadObject
                         (headInput s (URL_Path req ++ "/index.html"));
                       HttpError (errText e) 500] |}).
Proof.
intros Hslash Habs Hfail. unfold ServeHTTP. cbn zeta. rewrite Hslash.
unfold bind at 1. rewrite (headObject_absent _ w Habs). cbn iota.
unfold bind at 1. rewrite (headObject_fails _ e _ Hfail). monad.
by rewrite <- !app_assoc.
Qed.

(** Whatever the store answers, [serveFile] asks for the object once and
  then makes exactly one call that writes the response. *)
Lemma serveFile_trace (key : string) (w : World) :
exists e, isHttp e = true
          /\ trace (run (serveFile rt s req key) w)
             = (trace w ++ [S3GetObject (getInput s key); e])%list.
Proof.
unfold run.
destruct (GetObject (client s) (getInput s key)) as [o|e] eqn:Hget.
- destruct (readErr (Body o)) as [e|] eqn:Hread.
  + rewrite (serveFile_read_error rt s req key w o e Hget Hread).
eexists; split; cycle 1; reflexivity.
  + rewrite (serveFile_served rt s req key w o Hget Hread). eexists; split; cycle 1; reflexivity.
- destruct (hasAwsCode e "NoSuchKey") eqn:Hcode.
  + rewrite (serveFile_absent rt s req key w e Hget Hcode). eexists; split; cycle 1; reflexivity.
  + rewrite (serveFile_fetch_error rt s req key w e Hget Hcode).
eexists; split; cycle 1; reflexivity.
Qed.

End Resolution.

Lemma ServeHTTP_resolves (rt : Runtime) (s : S3Website) (req : Request)
    (key : string) :
  resolvesTo s req key ->
  exists checks,
    ServeHTTP rt s req emptyWorld
    = serveFile rt s req key {| header := ∅; trace := checks |}
    /\ List.filter isHttp checks = [].
Proof.
  intros [[Hslash ->]|(Hslash & Hex & ->)].
  - exists []. split; [|done]. by rewrite ServeHTTP_slash.
  - exists [S3HeadObject (headInput s (URL_Path req))]. split; [|done].
    by rewrite ServeHTTP_found.
Qed.



(** C5. For a request path that ends in a slash the resolved key is
    path + index.html and no existence check is made: the handler goes
    straight to the fetch, and when the store signals that the object is
    absent the 404 follows that fetch. *)
Theorem trailing_slash_serves_index (rt : Runtime) (s : S3Website)
    (req : Request) :
  HasSuffix (URL_Path req) "/" = true ->
  let key := URL_Path req ++ "index.html" in
  let w' := run (ServeHTTP rt s req) emptyWorld in
  ServeHTTP rt s req emptyWorld = serveFile rt s req key emptyWorld
  /\ (exists e, isHttp e = true
                /\ trace w' = [S3GetObject (getInput s key); e])
  /\ List.filter isHead (trace w') = []
  /\ (forall e, GetObject (client s) (getInput s key) = Err e ->
                hasAwsCode e "NoSuchKey" = true ->
                trace w' = [S3GetObject (getInput s key);
                            HttpError "404 page not found" 404]).
Proof.
  intros Hslash key w'. subst key w'.
  assert (Hrun : run (ServeHTTP rt s req) emptyWorld
                 = run (serveFile rt s req (URL_Path req ++ "index.html"))
                     emptyWorld)
    by (unfold run; by rewrite ServeHTTP_slash).
  destruct (serveFile_trace rt s req (URL_Path req ++ "index.html")
              emptyWorld) as (e & He & Htrace).
  rewrite Hrun, Htrace. cbn [emptyWorld trace app].
  repeat split.
  - by apply ServeHTTP_slash.
  - by exists e.
  - cbn [List.filter isHead]. by destruct e.
  - intros e' Hget Hcode. unfold run in Htrace.
    rewrite (serveFile_absent rt s req _ emptyWorld e' Hget Hcode) in Htrace.
    cbn [snd trace emptyWorld app] in Htrace. by rewrite <- Htrace.
Qed.

(** C6. When an existence check fails with anything but the store's
    not-found signal, resolution stops with a 500 carrying the error; the
    not-found signal lets resolution go on to the next check, and after
    the last check ends in 404. *)
Theorem existence_check_errors (rt : Runtime) (s : S3Website)
    (req : Request) :
  HasSuffix (URL_Path req) "/" = false ->
  let path := URL_Path req in
  let index := path ++ "/index.html" in
  let w' := run (ServeHTTP rt s req) emptyWorld in
  (forall e, checkFails s path e ->
     trace w' = [S3HeadObject (headInput s path);
                 HttpError (errText e) 500])
  /\ (forall e, objectAbsent s path -> checkFails s index e ->
        trace w' = [S3HeadObject (headInput s path);
                    S3HeadObject (headInput s index);
                    HttpError (errText e) 500])
  /\ (objectAbsent s path ->
        exists rest, trace w' = S3HeadObject (headInput s path)
                                :: S3HeadObject (headInput s index) :: rest)
  /\ (objectAbsent s path -> objectAbsent s index ->
        trace w' = [S3HeadObject (headInput s path);
                    S3HeadObject (headInput s index);
                    HttpError "404 page not found" 404]).
Proof.
  intros Hslash path index w'. subst path index w'. unfold run.
  repeat split.
  - intros e Hfail. by rewrite (ServeHTTP_check_fails rt s req _ e).
  - intros e Habs Hfail.
    by rewrite (ServeHTTP_second_check_fails rt s req _ e).
  - intros Habs.
    destruct (HeadObject (client s)
                (headInput s (URL_Path req ++ "/index.html")))
      as [m|e] eqn:H2.
    + rewrite ServeHTTP_redirect; [by eexists|done|done|by exists m].
    + destruct (hasAwsCode e "NotFound") eqn:Hc.
      * rewrite ServeHTTP_not_found; [by eexists|done|done|by exists e].
      * rewrite (ServeHTTP_second_check_fails rt s req _ e);
          [by eexists|done|done|done].
  - intros Habs Habs2. by rewrite ServeHTTP_not_found.
Qed.

(** C8. When reading the object's body fails the only call that writes
    the response is the 500, and no ETag, Cache-Control, Content-Encoding
    or Vary has been set (the Content-Type the handler had put in the map
    is the one [http.Error] replaces); when the body reads to the end, the
    one call that writes the response is handed the complete content. *)
Theorem body_read_failure_is_500 (rt : Runtime) (s : S3Website)
    (req : Request) (key : string) (o : GetObjectOutput) :
  resolvesTo s req key ->
  GetObject (client s) (getInput s key) = Ok o ->
  let w' := run (ServeHTTP rt s req) emptyWorld in
  (forall e, readErr (Body o) = Some e ->
     responses w' = [HttpError (errText e) 500]
     /\ header w' !! "Etag" = None
     /\ header w' !! "Cache-Control" = None
     /\ header w' !! "Content-Encoding" = None
     /\ header w' !! "Vary" = None)
  /\ (readErr (Body o) = None ->
        responses w' = [HttpServeContent key (TimeValue (LastModified o))
                          (servedContent rt req key o)]).
Proof.
  intros Hres Hget w'. subst w'.
  destruct (ServeHTTP_resolves rt s req key Hres) as (checks & Hrun & Hquiet).
  unfold run, responses. rewrite Hrun. split.
  - intros e Hread.
    rewrite (serveFile_read_error rt s req key _ o e Hget Hread).
    cbn [snd trace header]. rewrite List.filter_app, Hquiet.
    split; [done|].
    destruct (negb (String.eqb (resolvedContentType rt key o) ""));
      cbn zeta iota; repeat split;
      rewrite ?lookup_insert_ne by discriminate; apply lookup_empty.
  - intros Hread.
    rewrite (serveFile_served rt s req key _ o Hget Hread).
    cbn [snd trace]. by rewrite List.filter_app, Hquiet.
Qed.

(* ===================================================================== *)
(** ** The validator and the cache policy *)
(* ===================================================================== *)

(** In the package the ETag of a served object is the digest of the
    object's bytes, compressed or not. *)
Lemma serveFile_etag (rt : Runtime) (s : S3Website) (req : Request)
    (key : string) (o : GetObjectOutput) :
  GetObject (client s) (getInput s key) = Ok o ->
  readErr (Body o) = None ->
  let w' := run (serveFile rt s req key) emptyWorld in
  responses w' = [HttpServeContent key (TimeValue (LastModified o))
                    (servedContent rt req key o)]
  /\ header w' !! "Etag"
     = Some [etagOf base64Encoding (Sha256.Sum (objectBytes o))].
Proof.
  intros Hget Hread w'. subst w'.
  rewrite (run_served rt s req key o Hget Hread).
  split; [done|]. apply servedHeader_etag.
Qed.

(** So the compressed and the plain representation of an object carry the
    same ETag. *)
Lemma etag_same_for_both_representations (rt : Runtime) (s : S3Website)
    (req1 req2 : Request) (key : string) (o : GetObjectOutput) :
  GetObject (client s) (getInput s key) = Ok o ->
  readErr (Body o) = None ->
  compressable (hd "" (Split (resolvedContentType rt key o) ";")) = true ->
  acceptEncodingGzip req1 = true ->
  acceptEncodingGzip req2 = false ->
  let w1 := run (serveFile rt s req1 key) emptyWorld in
  let w2 := run (serveFile rt s req2 key) emptyWorld in
  responses w1 = [HttpServeContent key (TimeValue (LastModified o))
                    (gzip rt (objectBytes o))]
  /\ responses w2 = [HttpServeContent key (TimeValue (LastModified o))
                       (objectBytes o)]
  /\ header w1 !! "Etag" = header w2 !! "Etag".
Proof.
  intros Hget Hread Hc Ha1 Ha2 w1 w2. subst w1 w2.
  rewrite (run_served rt s req1 key o Hget Hread),
          (run_served rt s req2 key o Hget Hread).
  unfold responses, servedContent. cbn [trace header List.filter isHttp].
  rewrite !servedHeader_etag, Hc, Ha1, Ha2. cbn [andb].
  repeat split; reflexivity.
Qed.

(** The stand-alone variant, served case. *)
Lemma Main_serveFile_served (rt : Runtime) (s : S3Website) (req : Request)
    (key : string) (w : World) (o : GetObjectOutput) :
  GetObject (client s) (getInput s key) = Ok o ->
  readErr (Body o) = None ->
  Main.serveFile rt s req key w
  = (tt, {| header := Main.servedHeader rt req key o (header w);
            trace := trace w ++ [S3GetObject (getInput s key);
                                 HttpServeContent key
                                   (TimeValue (LastModified o))
                                   (Main.servedContent rt req key o
                                      (header w))] |}).
Proof.
  intros Hget Hread.
  unfold Main.serveFile, getObject. monad.
  fold (getInput s key). rewrite Hget. monad.
  unfold ReadAll. rewrite Hread. monad.
  fold (Main.resolvedContentType rt key o (header w)).
  unfold Main.servedHeader, Main.servedContent.
  destruct (compressable
              (hd "" (Split (Main.resolvedContentType rt key o (header w)) ";"))
            && acceptEncodingGzip req);
    destruct (negb (String.eqb (StringValue (CacheControl o)) ""));
    monad; autorewrite with canonical; rewrite <- app_assoc; reflexivity.
Qed.

(** There the ETag is the digest of the bytes that are transmitted, in
    padded base64. *)
Lemma Main_serveFile_etag (rt : Runtime) (s : S3Website) (req : Request)
    (key : string) (o : GetObjectOutput) :
  GetObject (client s) (getInput s key) = Ok o ->
  readErr (Body o) = None ->
  let w' := run (Main.serveFile rt s req key) emptyWorld in
  let transmitted := Main.servedContent rt req key o ∅ in
  responses w' = [HttpServeContent key (TimeValue (LastModified o))
                    transmitted]
  /\ header w' !! "Etag"
     = Some [etagOf Base64.StdEncoding (Sha1.Sum transmitted)].
Proof.
  intros Hget Hread w' transmitted. subst w' transmitted. unfold run.
  rewrite (Main_serveFile_served rt s req key emptyWorld o Hget Hread).
  split; [done|]. cbn [snd header emptyWorld].
  unfold Main.servedHeader, etagOf.
  repeat match goal with |- context [if ?b then _ else _] => destruct b end;
    header_lookup.
Qed.

(** Without a directive from the store the policy is a freshness window of
    60 seconds; with one, the header carries the store's content-type. *)
Lemma serveFile_cache_control (rt : Runtime) (s : S3Website) (req : Request)
    (key : string) (o : GetObjectOutput) :
  GetObject (client s) (getInput s key) = Ok o ->
  readErr (Body o) = None ->
  header (run (serveFile rt s req key) emptyWorld) !! "Cache-Control"
  = Some [if negb (String.eqb (StringValue (CacheControl o)) "")
          then StringValue (ContentType o) else "max-age=60"].
Proof.
  intros Hget Hread. rewrite (run_served rt s req key o Hget Hread).
  apply servedHeader_cache_control.
Qed.

(** An unresolved content-type leaves a Content-Type header whose value is
    the empty string. *)
Lemma serveFile_unknown_content_type (rt : Runtime) (s : S3Website)
    (req : Request) (key : string) (o : GetObjectOutput) :
  GetObject (client s) (getInput s key) = Ok o ->
  readErr (Body o) = None ->
  resolvedContentType rt key o = "" ->
  header (run (serveFile rt s req key) emptyWorld) !! "Content-Type"
  = Some [""].
Proof.
  intros Hget Hread Hct. rewrite (run_served rt s req key o Hget Hread).
  cbn [header]. by rewrite servedHeader_content_type, Hct.
Qed.

(** C1. The ETag of a compressed response, evaluated on the empty page
    /empty.html requested with Accept-Encoding: gzip: the body that is
    transmitted is the gzip stream, the ETag is the unpadded base64 of the
    SHA-256 of the object's own (empty) bytes, and that differs from the
    digest of the transmitted bytes. *)
Theorem etag_of_compressed_page :
  let w' := run (ServeHTTP refRuntime site
                   (request "/empty.html" (Some "gzip"))) emptyWorld in
  let transmitted := Gzip.compress [] in
  responses w' = [HttpServeContent "/empty.html" zeroTime transmitted]
  /\ header w' !! "Content-Encoding" = Some ["gzip"]
  /\ header w' !! "Etag" = Some [etagOf base64Encoding (Sha256.Sum [])]
  /\ etagOf base64Encoding (Sha256.Sum [])
     <> etagOf base64Encoding (Sha256.Sum transmitted).
Proof.
  cbv zeta. repeat split; try (vm_compute; reflexivity).
  intros Heq. vm_compute in Heq. discriminate.
Qed.

(** C2. The Cache-Control header of an object stored with the directive
    max-age=3600 and the content-type text/css, evaluated in both
    variants: the header carries text/css. *)
Theorem cache_control_directive_replaced :
  let req := request "/cached.css" None in
  (exists o, GetObject (client site) (getInput site "/cached.css") = Ok o
             /\ CacheControl o = Some "max-age=3600"
             /\ ContentType o = Some "text/css")
  /\ header (run (ServeHTTP refRuntime site req) emptyWorld)
       !! "Cache-Control" = Some ["text/css"]
  /\ header (run (Main.ServeHTTP refRuntime site req) emptyWorld)
       !! "Cache-Control" = Some ["text/css"].
Proof.
  cbv zeta. repeat split; try (vm_compute; reflexivity).
  eexists. repeat split; vm_compute; reflexivity.
Qed.

(** C7. The Content-Type header of the object /data, which the store
    reports without a content-type and whose key has no extension: the
    object is served and the header map holds Content-Type with the empty
    string as its value. *)
Theorem unknown_content_type_header :
  let w' := run (ServeHTTP refRuntime site (request "/data" None))
              emptyWorld in
  (exists o, GetObject (client site) (getInput site "/data") = Ok o
             /\ ContentType o = None)
  /\ TypeByExtension refRuntime (Ext "/data") = ""
  /\ responses w' = [HttpServeContent "/data" zeroTime (bytes "x")]
  /\ header w' !! "Content-Type" = Some [""].
Proof.
  cbv zeta. repeat split; try (vm_compute; reflexivity).
  eexists. repeat split; vm_compute; reflexivity.
Qed.

(* ===================================================================== *)
(** ** The theorems at concrete requests *)
(* ===================================================================== *)

Lemma compression_exactly_when_negotiated_witness :
  GetObject (client site) (getInput site "/app.js") = Ok appJs
  /\ readErr (Body appJs) = None
  /\ header (run (serveFile refRuntime site
                    (request "/app.js" (Some "gzip, deflate")) "/app.js")
               emptyWorld) !! "Content-Encoding" = Some ["gzip"].
Proof.
  split; [reflexivity|]. split; [reflexivity|].
  apply (proj1 (compression_exactly_when_negotiated refRuntime site
                  (request "/app.js" (Some "gzip, deflate")) "/app.js" appJs
                  eq_refl eq_refl)).
  split; [vm_compute; reflexivity|].
  exists "gzip". split; [vm_compute; auto | reflexivity].
Defined.


Lemma trailing_slash_serves_index_witness :
  HasSuffix (URL_Path (request "/" None)) "/" = true
  /\ ServeHTTP refRuntime site (request "/" None) emptyWorld
     = serveFile refRuntime site (request "/" None) "/index.html" emptyWorld.
Proof.
  split; [reflexivity|].
  apply (proj1 (trailing_slash_serves_index refRuntime site
                  (request "/" None) eq_refl)).
Defined.

Lemma existence_check_errors_witness :
  HasSuffix (URL_Path (request "/locked" None)) "/" = false
  /\ checkFails site "/locked" AccessDenied
  /\ trace (run (ServeHTTP refRuntime site (request "/locked" None))
              emptyWorld)
     = [S3HeadObject (headInput site "/locked");
        HttpError "AccessDenied: Access Denied" 500].
Proof.
  split; [reflexivity|].
  assert (Hfail : checkFails site "/locked" AccessDenied)
    by (split; reflexivity).
  split; [exact Hfail|].
  apply (proj1 (existence_check_errors refRuntime site
                  (request "/locked" None) eq_refl) AccessDenied Hfail).
Defined.

Lemma body_read_failure_is_500_witness :
  resolvesTo site (request "/broken.txt" None) "/broken.txt"
  /\ GetObject (client site) (getInput site "/broken.txt") = Ok brokenTxt
  /\ responses (run (ServeHTTP refRuntime site (request "/broken.txt" None))
                  emptyWorld)
     = [HttpError "read tcp: i/o timeout" 500].
Proof.
  assert (Hres : resolvesTo site (request "/broken.txt" None) "/broken.txt").
  { right. split; [reflexivity|]. split; [|reflexivity].
    exists (metadata brokenTxt). reflexivity. }
  split; [exact Hres|]. split; [reflexivity|].
  apply (proj1 (body_read_failure_is_500 refRuntime site
                  (request "/broken.txt" None) "/broken.txt" brokenTxt
                  Hres eq_refl) timeout eq_refl).
Defined.

Lemma etag_deterministic_witness :
  GetObject (client site) (getInput site "/index.html") = Ok indexPage
  /\ readErr (Body indexPage) = None
  /\ objectBytes indexPage = objectBytes indexPage
  /\ req_Header (request "/index.html" None) !! "Accept-Encoding" = None
  /\ req_Header (request "/" None) !! "Accept-Encoding" = None
  /\ header (run (serveFile refRuntime site (request "/index.html" None)
                    "/index.html") emptyWorld) !! "Etag"
     = header (run (serveFile refRuntime site (request "/" None)
                      "/index.html") emptyWorld) !! "Etag".
Proof.
  repeat (split; [reflexivity|]).
  apply (proj1 (etag_deterministic refRuntime site site
                  (request "/index.html" None) (request "/" None)
                  "/index.html" "/index.html" indexPage indexPage
                  eq_refl eq_refl eq_refl eq_refl eq_refl eq_refl eq_refl)).
Defined.

Lemma gzip_with_parameter_not_accepted_witness :
  (forall token,
     In token (acceptEncodingTokens (request "/app.js" (Some "gzip;q=1.0"))) ->
     mentionsGzip token -> hasParameter token)
  /\ GetObject (client site) (getInput site "/app.js") = Ok appJs
  /\ readErr (Body appJs) = None
  /\ acceptEncodingGzip (request "/app.js" (Some "gzip;q=1.0")) = false.
Proof.
  assert (Hpar : forall token,
            In token (acceptEncodingTokens
                        (request "/app.js" (Some "gzip;q=1.0"))) ->
            mentionsGzip token -> hasParameter token).
  { intros token Hin _. vm_compute in Hin.
    destruct Hin as [<-|[]]. reflexivity. }
  split; [exact Hpar|]. split; [reflexivity|]. split; [reflexivity|].
  apply (proj1 (gzip_with_parameter_not_accepted refRuntime site
                  (request "/app.js" (Some "gzip;q=1.0")) "/app.js" appJs
                  Hpar eq_refl eq_refl)).
Defined.

(** The requests the acceptance test is documented by. *)
Example accept_gzip_deflate :
  acceptEncodingGzip (request "/" (Some "gzip, deflate")) = true.
Proof. reflexivity. Qed.

Example accept_gzip_q1 :
  acceptEncodingGzip (request "/" (Some "gzip;q=1.0")) = false.
Proof. reflexivity. Qed.

Example accept_gzip_q0 :
  acceptEncodingGzip (request "/" (Some "deflate, gzip;q=0")) = false.
Proof. reflexivity. Qed.

Example accept_upper_case :
  acceptEncodingGzip (request "/" (Some "GZIP")) = false.
Proof. reflexivity. Qed.

(** On the empty page the stand-alone variant hashes the gzip stream it
    transmits, with SHA-1 and padded base64. *)
Example Main_etag_of_compressed_page :
  header (run (Main.ServeHTTP refRuntime site
                 (request "/empty.html" (Some "gzip"))) emptyWorld) !! "Etag"
  = Some [etagOf Base64.StdEncoding (Sha1.Sum (Gzip.compress []))]
  /\ etagOf Base64.StdEncoding (Sha1.Sum (Gzip.compress []))
     = quote ++ "WEI6mZ7sKZe8//skfp7NPf0Kv0Q=" ++ quote.
Proof. split; vm_compute; reflexivity. Qed.

(** Four requests against the sample bucket: the index document, a
    directory without its slash, a script requested with gzip, and a key
    that is not there. *)
Example index_document :
  let w' := run (ServeHTTP refRuntime site (request "/" None)) emptyWorld in
  responses w' = [HttpServeContent "/index.html" zeroTime
                    (bytes "<html></html>")]
  /\ header w' !! "Content-Type" = Some ["text/html"]
  /\ header w' !! "Cache-Control" = Some ["max-age=60"]
  /\ is_Some (header w' !! "Etag")
  /\ header w' !! "Content-Encoding" = None.
Proof.
  cbv zeta. repeat split; try (vm_compute; reflexivity).
  vm_compute. by eexists.
Qed.

Example directory_redirect :
  responses (run (ServeHTTP refRuntime site (request "/about" None))
               emptyWorld)
  = [HttpRedirect "/about/" 302].
Proof. vm_compute. reflexivity. Qed.

Example script_compressed :
  let w' := run (ServeHTTP refRuntime site
                   (request "/app.js" (Some "gzip, deflate"))) emptyWorld in
  header w' !! "Content-Encoding" = Some ["gzip"]
  /\ header w' !! "Vary" = Some ["accept-encoding"].
Proof. cbv zeta. split; vm_compute; reflexivity. Qed.

Example missing_object :
  responses (run (ServeHTTP refRuntime site (request "/missing.png" None))
               emptyWorld)
  = [HttpError "404 page not found" 404].
Proof. vm_compute. reflexivity. Qed.

(* ===================================================================== *)
(** ** Every outcome of a request *)
(* ===================================================================== *)

Lemma head_answer (s : S3Website) (key : string) :
  objectExists s key \/ objectAbsent s key \/ exists e, checkFails s key e.
Proof.
  unfold objectExists, objectAbsent, checkFails.
  destruct (HeadObject (client s) (headInput s key)) as [m|e];
    [left; by exists m|].
  destruct (hasAwsCode e "NotFound") eqn:Hcode.
  - right; left. by exists e.
  - right; right. by exists e.
Qed.

(** The four ways [serveFile] can end. *)
Lemma serveFile_cases (rt : Runtime) (s : S3Website) (req : Request)
    (key : string) (w : World) :
  let w' := run (serveFile rt s req key) w in
  (exists o,
      GetObject (client s) (getInput s key) = Ok o
      /\ readErr (Body o) = None
      /\ header w' = servedHeader rt req key o (header w)
      /\ trace w' = (trace w ++ [S3GetObject (getInput s key);
                                  HttpServeContent key
                                    (TimeValue (LastModified o))
                                    (servedContent rt req key o)])%list)
  \/ (exists text code,
         (header w' = header w
          \/ exists ct, header w' = <["Content-Type" := [ct]]> (header w))
         /\ trace w' = (trace w ++ [S3GetObject (getInput s key);
                                     HttpError text code])%list).
Proof.
  intros w'. subst w'. unfold run.
  destruct (GetObject (client s) (getInput s key)) as [o|e] eqn:Hget.
  - destruct (readErr (Body o)) as [e|] eqn:Hread.
    + rewrite (serveFile_read_error rt s req key w o e Hget Hread).
      right. exists (errText e), 500. cbn [snd header trace]. split; [|done].
      destruct (negb (String.eqb (resolvedContentType rt key o) ""));
        [right; by eexists | by left].
    + rewrite (serveFile_served rt s req key w o Hget Hread).
      left. by exists o.
  - destruct (hasAwsCode e "NoSuchKey") eqn:Hcode.
    + rewrite (serveFile_absent rt s req key w e Hget Hcode).
      right. exists "404 page not found", 404. split; [by left | done].
    + rewrite (serveFile_fetch_error rt s req key w e Hget Hcode).
      right. exists (errText e), 500. split; [by left | done].
Qed.

(** The six ways [ServeHTTP] can go. *)
Lemma ServeHTTP_cases (rt : Runtime) (s : S3Website) (req : Request) :
  let path := URL_Path req in
  let index := path ++ "/index.html" in
  let w' := run (ServeHTTP rt s req) emptyWorld in
  (HasSuffix path "/" = true
   /\ w' = run (serveFile rt s req (path ++ "index.html")) emptyWorld)
  \/ (HasSuffix path "/" = false
      /\ ((objectExists s path
           /\ w' = run (serveFile rt s req path)
                     {| header := ∅;
                        trace := [S3HeadObject (headInput s path)] |})
          \/ (exists e, checkFails s path e
                /\ w' = {| header := ∅;
                           trace := [S3HeadObject (headInput s path);
                                     HttpError (errText e) 500] |})
          \/ (objectAbsent s path /\ objectExists s index
              /\ w' = {| header := ∅;
                         trace := [S3HeadObject (headInput s path);
                                   S3HeadObject (headInput s index);
                                   HttpRedirect (path ++ "/") 302] |})
          \/ (objectAbsent s path /\ objectAbsent s index
              /\ w' = {| header := ∅;
                         trace := [S3HeadObject (headInput s path);
                                   S3HeadObject (headInput s index);
                                   HttpError "404 page not found" 404] |})
          \/ (exists e, objectAbsent s path /\ checkFails s index e
                /\ w' = {| header := ∅;
                           trace := [S3HeadObject (headInput s path);
                                     S3HeadObject (headInput s index);
                                     HttpError (errText e) 500] |}))).
Proof.
  intros path index w'. subst path index w'. unfold run.
  destruct (HasSuffix (URL_Path req) "/") eqn:Hslash.
  - left. split; [done|]. by rewrite ServeHTTP_slash.
  - right. split; [done|].
    destruct (head_answer s (URL_Path req)) as [Hex|[Habs|[e He]]].
    + left. split; [done|]. by rewrite ServeHTTP_found.
    + destruct (head_answer s (URL_Path req ++ "/index.html"))
        as [Hex2|[Habs2|[e He]]].
      * right; right; left. split; [done|]. split; [done|].
        by rewrite ServeHTTP_redirect.
      * right; right; right; left. split; [done|]. split; [done|].
        by rewrite ServeHTTP_not_found.
      * right; right; right; right. exists e. split; [done|]. split; [done|].
        by rewrite (ServeHTTP_second_check_fails rt s req _ e).
    + right; left. exists e. split; [done|].
      by rewrite (ServeHTTP_check_fails rt s req _ e).
Qed.

Lemma http_no_target (e : Event) : isHttp e = true -> s3Target e = None.
Proof. by destruct e. Qed.

(** X1. A request never gets more than one call that writes the
    response, and such a call is the handler's last action: everything
    before the last event of a run is a request to S3, with at most two
    HeadObject requests and at most one GetObject request in the run. *)
Theorem at_most_one_response_and_last (rt : Runtime) (s : S3Website)
    (req : Request) :
  List.filter isHttp
    (removelast (trace (run (ServeHTTP rt s req) emptyWorld))) = []
  /\ (length (responses (run (ServeHTTP rt s req) emptyWorld)) <= 1)%nat
  /\ (length (List.filter isHead
                (trace (run (ServeHTTP rt s req) emptyWorld))) <= 2)%nat
  /\ (length (List.filter isGet
                (trace (run (ServeHTTP rt s req) emptyWorld))) <= 1)%nat.
Proof.
  unfold responses.
  destruct (ServeHTTP_cases rt s req)
    as [[_ ->]|[_ [[_ ->]|[(e & _ & ->)|[(_ & _ & ->)|[(_ & _ & ->)
                                                      |(e & _ & _ & ->)]]]]]].
  - destruct (serveFile_trace rt s req (URL_Path req ++ "index.html")
                emptyWorld) as (e & He & ->).
    cbn. rewrite He. destruct e; try discriminate He; cbn;
      repeat split; lia.
  - destruct (serveFile_trace rt s req (URL_Path req)
                {| header := ∅;
                   trace := [S3HeadObject (headInput s (URL_Path req))] |})
      as (e & He & ->).
    cbn. rewrite He. destruct e; try discriminate He; cbn;
      repeat split; lia.
  - cbn. repeat split; lia.
  - cbn. repeat split; lia.
  - cbn. repeat split; lia.
  - cbn. repeat split; lia.
Qed.

(** The bucket and the key of every S3 request of a run. *)
Lemma trace_targets (rt : Runtime) (s : S3Website)
    (req : Request) (e : Event) (b k : string) :
  In e (trace (run (ServeHTTP rt s req) emptyWorld)) ->
  s3Target e = Some (b, k) ->
  b = bucket s
  /\ if HasSuffix (URL_Path req) "/"
     then k = URL_Path req ++ "index.html"
     else k = URL_Path req \/ k = URL_Path req ++ "/index.html".
Proof.
  intros Hin Htarget.
  destruct (ServeHTTP_cases rt s req)
    as [[Hslash Hrun]|[Hslash [[_ Hrun]|[(e' & _ & Hrun)|[(_ & _ & Hrun)
         |[(_ & _ & Hrun)|(e' & _ & _ & Hrun)]]]]]];
    rewrite Hrun in Hin; rewrite Hslash; clear Hrun.
  - destruct (serveFile_trace rt s req (URL_Path req ++ "index.html")
                emptyWorld) as (e' & He' & Ht).
    rewrite Ht in Hin. cbn in Hin.
    destruct Hin as [<-|[<-|[]]]; [by inversion Htarget|].
    by rewrite (http_no_target _ He') in Htarget.
  - destruct (serveFile_trace rt s req (URL_Path req)
                {| header := ∅;
                   trace := [S3HeadObject (headInput s (URL_Path req))] |})
      as (e' & He' & Ht).
    rewrite Ht in Hin. cbn in Hin.
    destruct Hin as [<-|[<-|[<-|[]]]];
      [inversion Htarget; auto | inversion Htarget; auto |].
    by rewrite (http_no_target _ He') in Htarget.
  - cbn in Hin. destruct Hin as [<-|[<-|[]]]; inversion Htarget; auto.
  - cbn in Hin. destruct Hin as [<-|[<-|[<-|[]]]]; inversion Htarget; auto.
  - cbn in Hin. destruct Hin as [<-|[<-|[<-|[]]]]; inversion Htarget; auto.
  - cbn in Hin. destruct Hin as [<-|[<-|[<-|[]]]]; inversion Htarget; auto.
Qed.

(** X2. Every request the handler sends to S3 names the bucket it was
    built with, and its key is path + index.html for a path with a
    trailing slash, and the path itself or path + /index.html otherwise. *)
Theorem s3_requests_stay_in_bucket (rt : Runtime) (s : S3Website)
    (req : Request) (e : Event) (b k : string) :
  In e (trace (run (ServeHTTP rt s req) emptyWorld)) ->
  s3Target e = Some (b, k) ->
  b = bucket s
  /\ if HasSuffix (URL_Path req) "/"
     then k = URL_Path req ++ "index.html"
     else k = URL_Path req \/ k = URL_Path req ++ "/index.html".
Proof. apply trace_targets. Qed.

(** X3. [http.Redirect] is called only for a path without trailing slash
    whose own key is absent and whose index document exists; the status
    it is given is 302 and the url it is given is the path followed by a
    slash. *)
Theorem redirect_only_for_directories (rt : Runtime) (s : S3Website)
    (req : Request) (url : string) (code : Z) :
  In (HttpRedirect url code) (trace (run (ServeHTTP rt s req) emptyWorld)) ->
  code = 302 /\ url = URL_Path req ++ "/"
  /\ HasSuffix (URL_Path req) "/" = false
  /\ objectAbsent s (URL_Path req)
  /\ objectExists s (URL_Path req ++ "/index.html").
Proof.
  intros Hin.
  destruct (ServeHTTP_cases rt s req)
    as [[Hslash Hrun]|[Hslash [[_ Hrun]|[(e' & _ & Hrun)|[(Ha & Hx & Hrun)
         |[(_ & _ & Hrun)|(e' & _ & _ & Hrun)]]]]]];
    rewrite Hrun in Hin; clear Hrun.
  - destruct (serveFile_cases rt s req (URL_Path req ++ "index.html")
                emptyWorld) as [(o & _ & _ & _ & Ht)|(t & c & _ & Ht)];
      rewrite Ht in Hin; cbn in Hin;
      destruct Hin as [H|[H|[]]]; discriminate.
  - destruct (serveFile_cases rt s req (URL_Path req)
                {| header := ∅;
                   trace := [S3HeadObject (headInput s (URL_Path req))] |})
      as [(o & _ & _ & _ & Ht)|(t & c & _ & Ht)];
      rewrite Ht in Hin; cbn in Hin;
      destruct Hin as [H|[H|[H|[]]]]; discriminate.
  - cbn in Hin. destruct Hin as [H|[H|[]]]; discriminate.
  - cbn in Hin. destruct Hin as [H|[H|[H|[]]]]; try discriminate.
    by inversion H.
  - cbn in Hin. destruct Hin as [H|[H|[H|[]]]]; discriminate.
  - cbn in Hin. destruct Hin as [H|[H|[H|[]]]]; discriminate.
Qed.

(** X4. The final header map holds an ETag exactly when the response is
    the served object; on every other response (error, not found,
    redirect) the handler has set no header except, at most,
    Content-Type. *)
Theorem etag_exactly_when_served (rt : Runtime) (s : S3Website)
    (req : Request) :
  let w' := run (ServeHTTP rt s req) emptyWorld in
  (is_Some (header w' !! "Etag")
   <-> exists name modtime content,
         responses w' = [HttpServeContent name modtime content])
  /\ (header w' !! "Etag" = None ->
      forall name, is_Some (header w' !! name) -> name = "Content-Type").
Proof.
  assert (Hserve : forall key checks,
            List.filter isHttp checks = [] ->
            let w' := run (serveFile rt s req key)
                        {| header := ∅; trace := checks |} in
            (is_Some (header w' !! "Etag")
             <-> exists name modtime content,
                   responses w' = [HttpServeContent name modtime content])
            /\ (header w' !! "Etag" = None ->
                forall name, is_Some (header w' !! name) ->
                             name = "Content-Type")).
  { intros key checks Hquiet w'. subst w'. unfold responses.
    destruct (serveFile_cases rt s req key
                {| header := ∅; trace := checks |})
      as [(o & _ & _ & Hh & Ht)|(t & c & Hh & Ht)];
      rewrite Ht; cbn [trace header] in *;
      rewrite List.filter_app, Hquiet; cbn [List.filter isHttp app].
    - rewrite Hh, servedHeader_etag. split.
      + split; [intros _; eexists _, _, _; reflexivity
               | intros _; eexists; reflexivity].
      + discriminate.
    - assert (Hnone : header
                        (run (serveFile rt s req key)
                           {| header := ∅; trace := checks |}) !! "Etag"
                      = None).
      { destruct Hh as [->|[ct ->]];
          [apply lookup_empty|].
        rewrite lookup_insert_ne by discriminate. apply lookup_empty. }
      rewrite Hnone. split.
      + split; [by intros [? ?] | by intros (? & ? & ? & ?)].
      + intros _ name [v Hv]. destruct Hh as [Hh|[ct Hh]]; rewrite Hh in Hv.
        * by rewrite lookup_empty in Hv.
        * apply lookup_insert_Some in Hv as [[<- _]|[_ Hv]]; [done|].
          by rewrite lookup_empty in Hv. }
  intros w'. subst w'.
  destruct (ServeHTTP_cases rt s req)
    as [[_ ->]|[_ [[_ ->]|[(e' & _ & ->)|[(_ & _ & ->)
         |[(_ & _ & ->)|(e' & _ & _ & ->)]]]]]].
  - by apply (Hserve _ []).
  - by apply (Hserve _ [S3HeadObject _]).
  - unfold responses; cbn. rewrite lookup_empty. split.
    + split; [by intros [? ?] | by intros (? & ? & ? & ?)].
    + intros _ name [v Hv]. by rewrite lookup_empty in Hv.
  - unfold responses; cbn. rewrite lookup_empty. split.
    + split; [by intros [? ?] | by intros (? & ? & ? & ?)].
    + intros _ name [v Hv]. by rewrite lookup_empty in Hv.
  - unfold responses; cbn. rewrite lookup_empty. split.
    + split; [by intros [? ?] | by intros (? & ? & ? & ?)].
    + intros _ name [v Hv]. by rewrite lookup_empty in Hv.
  - unfold responses; cbn. rewrite lookup_empty. split.
    + split; [by intros [? ?] | by intros (? & ? & ? & ?)].
    + intros _ name [v Hv]. by rewrite lookup_empty in Hv.
Qed.

(* ===================================================================== *)
(** ** The two absence signals, and objects that vanish *)
(* ===================================================================== *)

Lemma hasAwsCode_unique (e : error) (a b : string) :
  hasAwsCode e a = true -> a <> b -> hasAwsCode e b = false.
Proof.
  unfold hasAwsCode. destruct (awsCode e) as [c|]; [|done].
  intros Ha Hne. apply String.eqb_eq in Ha. subst c.
  by apply String.eqb_neq.
Qed.

(** X5. The two absence signals are not interchangeable: a GetObject
    failure with the code NotFound and a HeadObject failure with the code
    NoSuchKey are both answered with a 500 that carries the error text,
    not with a 404 or a further check. *)
Theorem absence_codes_not_interchangeable (rt : Runtime) (s : S3Website)
    (req : Request) (key : string) (e : error) :
  (GetObject (client s) (getInput s key) = Err e ->
   hasAwsCode e "NotFound" = true ->
   trace (run (serveFile rt s req key) emptyWorld)
   = [S3GetObject (getInput s key); HttpError (errText e) 500])
  /\ (HasSuffix (URL_Path req) "/" = false ->
      HeadObject (client s) (headInput s (URL_Path req)) = Err e ->
      hasAwsCode e "NoSuchKey" = true ->
      trace (run (ServeHTTP rt s req) emptyWorld)
      = [S3HeadObject (headInput s (URL_Path req));
         HttpError (errText e) 500]).
Proof.
  split.
  - intros Hget Hcode. unfold run.
    by rewrite (serveFile_fetch_error rt s req key emptyWorld e Hget
                  (hasAwsCode_unique e "NotFound" "NoSuchKey" Hcode
                     ltac:(discriminate))).
  - intros Hslash Hhead Hcode. unfold run.
    rewrite (ServeHTTP_check_fails rt s req emptyWorld e Hslash); [done|].
    split; [done|].
    by apply (hasAwsCode_unique e "NoSuchKey" "NotFound").
Qed.

(** X6. An object the existence check finds but the fetch reports as
    absent is answered with 404, after exactly those two requests; it is
    neither an error nor a redirect. *)
Theorem vanished_object_is_not_found (rt : Runtime) (s : S3Website)
    (req : Request) (e : error) :
  HasSuffix (URL_Path req) "/" = false ->
  objectExists s (URL_Path req) ->
  GetObject (client s) (getInput s (URL_Path req)) = Err e ->
  hasAwsCode e "NoSuchKey" = true ->
  let w' := run (ServeHTTP rt s req) emptyWorld in
  trace w' = [S3HeadObject (headInput s (URL_Path req));
              S3GetObject (getInput s (URL_Path req));
              HttpError "404 page not found" 404]
  /\ header w' = ∅.
Proof.
  intros Hslash Hex Hget Hcode w'. subst w'. unfold run.
  rewrite (ServeHTTP_found rt s req emptyWorld Hslash Hex).
  by rewrite (serveFile_absent rt s req _ _ e Hget Hcode).
Qed.

(* ===================================================================== *)
(** ** Following the redirect *)
(* ===================================================================== *)

Lemma length_append (s t : string) :
  String.length (s ++ t) = (String.length s + String.length t)%nat.
Proof.
  induction s as [|a s IH]; [done|].
  rewrite append_String. cbn [String.length]. by rewrite IH.
Qed.

Lemma substring_suffix (s t : string) :
  substring (String.length s) (String.length t) (s ++ t) = t.
Proof.
  induction s as [|a s IH].
  - change ("" ++ t) with t. cbn [String.length].
    induction t as [|b t IHt]; [done|].
    cbn [String.length substring]. by rewrite IHt.
  - rewrite append_String. cbn [String.length substring]. exact IH.
Qed.

Lemma HasSuffix_append (s suffix : string) : HasSuffix (s ++ suffix) suffix = true.
Proof.
  unfold HasSuffix. rewrite length_append.
  replace (String.length s + String.length suffix - String.length suffix)%nat
    with (String.length s) by lia.
  rewrite substring_suffix, String.eqb_refl, andb_true_r.
  apply Nat.leb_le. lia.
Qed.

(** X7. The existence check made for a path without trailing slash and
    the fetch made for that path with a slash appended name the same key:
    when the path has no object the handler checks path/index.html, and a
    request for path/ goes straight to fetching that very key, with no
    existence check and no call of [http.Redirect]. *)
Theorem slash_path_fetches_checked_index (rt : Runtime) (s : S3Website)
    (req req' : Request) :
  HasSuffix (URL_Path req) "/" = false ->
  objectAbsent s (URL_Path req) ->
  URL_Path req' = URL_Path req ++ "/" ->
  (exists rest,
      trace (run (ServeHTTP rt s req) emptyWorld)
      = S3HeadObject (headInput s (URL_Path req))
        :: S3HeadObject (headInput s (URL_Path req ++ "/index.html"))
        :: rest)
  /\ ServeHTTP rt s req' emptyWorld
     = serveFile rt s req' (URL_Path req ++ "/index.html") emptyWorld
  /\ exists rest,
       trace (run (ServeHTTP rt s req') emptyWorld)
       = S3GetObject (getInput s (URL_Path req ++ "/index.html")) :: rest
       /\ List.filter isHead rest = []
       /\ List.filter isRedirect rest = [].
Proof.
  intros Hslash Habs Hpath.
  assert (Hrun : ServeHTTP rt s req' emptyWorld
                 = serveFile rt s req' (URL_Path req ++ "/index.html")
                     emptyWorld).
  { rewrite ServeHTTP_slash; rewrite Hpath; [|apply HasSuffix_append].
    by rewrite append_assoc. }
  split; [|split; [exact Hrun|]].
  - destruct (ServeHTTP_cases rt s req)
      as [[Hs _]|[_ [[Hex _]|[(e & He & _)|[(_ & _ & ->)|[(_ & _ & ->)
                                           |(e & _ & _ & ->)]]]]]].
    + congruence.
    + destruct Hex as [m Hm]. destruct Habs as (e & He & _). congruence.
    + destruct He as [He Hn]. destruct Habs as (e' & He' & Hc). congruence.
    + by eexists.
    + by eexists.
    + by eexists.
  - unfold run. rewrite Hrun.
    destruct (serveFile_cases rt s req' (URL_Path req ++ "/index.html")
                emptyWorld) as [(o & _ & _ & _ & Ht)|(t & c & _ & Ht)];
      unfold run in Ht; rewrite Ht; eexists; (split; [reflexivity|]);
      by split.
Qed.

(* ===================================================================== *)
(** ** What a served response carries *)
(* ===================================================================== *)

(** X8. On a served response the handler has set Content-Type, Etag and
    Cache-Control, plus Content-Encoding and Vary exactly when it
    compressed, and nothing else; each of them has a single value. *)
Theorem served_header_names (rt : Runtime) (s : S3Website) (req : Request)
    (key : string) (o : GetObjectOutput) :
  GetObject (client s) (getInput s key) = Ok o ->
  readErr (Body o) = None ->
  let w' := run (serveFile rt s req key) emptyWorld in
  dom (header w')
  = ({[ "Content-Type"; "Etag"; "Cache-Control" ]} : gset string)
    ∪ (if compressable (hd "" (Split (resolvedContentType rt key o) ";"))
          && acceptEncodingGzip req
       then {[ "Content-Encoding"; "Vary" ]} else ∅)
  /\ map_Forall (fun _ values => length values = 1%nat) (header w').
Proof.
  intros Hget Hread w'. subst w'.
  rewrite (run_served rt s req key o Hget Hread). cbn [header].
  unfold servedHeader. split.
  - repeat match goal with |- context [if ?b then _ else _] => destruct b end;
      rewrite ?dom_insert_L, dom_empty_L; set_solver.
  - repeat match goal with |- context [if ?b then _ else _] => destruct b end;
      repeat (apply map_Forall_insert_2; [reflexivity|]);
      apply map_Forall_empty.
Qed.

(** X9. How the body arrives does not matter, nor does the bucket's
    name: two objects with the same bytes and the same metadata, read in
    different pieces from differently named buckets, give the same
    headers and the same response. *)
Theorem response_ignores_chunking (rt : Runtime)
    (s1 s2 : S3Website) (req : Request) (key : string)
    (o1 o2 : GetObjectOutput) :
  GetObject (client s1) (getInput s1 key) = Ok o1 ->
  GetObject (client s2) (getInput s2 key) = Ok o2 ->
  readErr (Body o1) = None ->
  readErr (Body o2) = None ->
  concat (reads (Body o1)) = concat (reads (Body o2)) ->
  ContentLength o1 = ContentLength o2 ->
  ContentType o1 = ContentType o2 ->
  CacheControl o1 = CacheControl o2 ->
  LastModified o1 = LastModified o2 ->
  let w1 := run (serveFile rt s1 req key) emptyWorld in
  let w2 := run (serveFile rt s2 req key) emptyWorld in
  header w1 = header w2 /\ responses w1 = responses w2.
Proof.
  intros Hget1 Hget2 Hread1 Hread2 Hbytes _ Hct Hcc Hlm w1 w2. subst w1 w2.
  rewrite (run_served rt s1 req key o1 Hget1 Hread1),
          (run_served rt s2 req key o2 Hget2 Hread2).
  unfold responses, servedHeader, servedContent, resolvedContentType,
    objectBytes.
  cbn [header trace List.filter isHttp].
  by rewrite Hbytes, Hct, Hcc, Hlm.
Qed.

(* ===================================================================== *)
(** ** The compression decision *)
(* ===================================================================== *)

Lemma Split_nonempty (s : string) (sep : ascii) : Split s sep <> [].
Proof.
  destruct s as [|c s]; [done|]. cbn [Split].
  destruct (Ascii.eqb c sep); [done|]. by destruct (Split s sep).
Qed.

Lemma Split_head (mediaType rest : string) (sep : ascii) :
  hasByte sep mediaType = false ->
  hd "" (Split (mediaType ++ String sep rest) sep) = mediaType.
Proof.
  induction mediaType as [|c m IH]; intros Hno.
  - change ("" ++ String sep rest) with (String sep rest).
    cbn [Split]. by rewrite Ascii.eqb_refl.
  - rewrite append_String. cbn [Split hasByte] in *.
    apply orb_false_iff in Hno as [Hc Hm]. rewrite Hc.
    specialize (IH Hm).
    destruct (Split (m ++ String sep rest) sep) as [|t ts] eqn:Hs;
      [by apply Split_nonempty in Hs|].
    cbn [hd] in *. by rewrite IH.
Qed.

(** X10. Parameters of the content-type do not enter the compression
    decision: an object stored as mediaType;params is compressed exactly
    when the bare media type is in the table and the request accepts
    gzip, while the Content-Type header keeps the parameters. *)
Theorem media_type_parameters_ignored (rt : Runtime) (s : S3Website)
    (req : Request) (key : string) (o : GetObjectOutput)
    (mediaType params : string) :
  GetObject (client s) (getInput s key) = Ok o ->
  readErr (Body o) = None ->
  ContentType o = Some (mediaType ++ ";" ++ params) ->
  hasByte ";" mediaType = false ->
  let w' := run (serveFile rt s req key) emptyWorld in
  responses w'
  = [HttpServeContent key (TimeValue (LastModified o))
       (if compressable mediaType && acceptEncodingGzip req
        then gzip rt (objectBytes o) else objectBytes o)]
  /\ header w' !! "Content-Type" = Some [mediaType ++ ";" ++ params].
Proof.
  intros Hget Hread Hct Hno w'. subst w'.
  assert (Hres : resolvedContentType rt key o = mediaType ++ ";" ++ params).
  { unfold resolvedContentType. rewrite Hct.
    change (";" ++ params) with (String ";" params).
    by destruct mediaType. }
  rewrite (run_served rt s req key o Hget Hread).
  unfold responses, servedContent. cbn [header trace List.filter isHttp].
  rewrite servedHeader_content_type, Hres.
  change (";" ++ params) with (String ";" params).
  by rewrite (Split_head mediaType params ";" Hno).
Qed.

Lemma Split_app (a b : string) (sep : ascii) :
  Split (a ++ String sep b) sep = (Split a sep ++ Split b sep)%list.
Proof.
  induction a as [|c a IH].
  - change ("" ++ String sep b) with (String sep b).
    cbn [Split]. by rewrite Ascii.eqb_refl.
  - rewrite append_String. cbn [Split]. rewrite IH.
    destruct (Ascii.eqb c sep); [done|].
    destruct (Split a sep) as [|t ts] eqn:Hs;
      [by apply Split_nonempty in Hs | done].
Qed.

Lemma acceptEncodingGzip_value (req : Request) (value : string) :
  acceptEncodingIs req value ->
  acceptEncodingGzip req
  = existsb (fun encoding => String.eqb (TrimSpace encoding) "gzip")
      (Split value ",").
Proof.
  intros [more Hv]. unfold acceptEncodingGzip, headerGet.
  by rewrite canonical_accept_encoding, Hv.
Qed.

(** X11. Acceptance is decided item by item: a header that joins two
    lists with a comma accepts gzip exactly when one of the two lists
    does, wherever in the list the item stands. *)
Theorem accept_encoding_lists_compose (req req1 req2 : Request)
    (a b : string) :
  acceptEncodingIs req (a ++ "," ++ b) ->
  acceptEncodingIs req1 a ->
  acceptEncodingIs req2 b ->
  acceptEncodingGzip req = acceptEncodingGzip req1 || acceptEncodingGzip req2.
Proof.
  intros H H1 H2.
  rewrite (acceptEncodingGzip_value req _ H),
          (acceptEncodingGzip_value req1 _ H1),
          (acceptEncodingGzip_value req2 _ H2).
  change ("," ++ b) with (String "," b).
  by rewrite Split_app, existsb_app.
Qed.

Lemma blank_app (s t : string) : blank (s ++ t) = blank s && blank t.
Proof.
  induction s as [|a s IH]; [done|].
  rewrite append_String. cbn [blank]. by rewrite IH, andb_assoc.
Qed.

Lemma blank_rev (s : string) : blank (String.rev s) = blank s.
Proof.
  induction s as [|a s IH]; [done|].
  rewrite rev_String, blank_app, IH. cbn [blank].
  by rewrite andb_true_r, andb_comm.
Qed.

Lemma TrimLeftSpace_blank (l s : string) :
  blank l = true -> TrimLeftSpace (l ++ s) = TrimLeftSpace s.
Proof.
  induction l as [|a l IH]; [done|]. cbn [blank]. intros Hb.
  apply andb_true_iff in Hb as [Ha Hl].
  rewrite append_String. cbn [TrimLeftSpace]. rewrite Ha. by apply IH.
Qed.

Lemma TrimLeftSpaceRev_blank (l s : string) :
  blank l = true -> TrimLeftSpaceRev (l ++ s) = TrimLeftSpaceRev s.
Proof.
  induction l as [|a l IH]; [done|]. cbn [blank]. intros Hb.
  apply andb_true_iff in Hb as [Ha Hl].
  rewrite append_String. cbn [TrimLeftSpaceRev]. rewrite Ha. by apply IH.
Qed.

Lemma TrimSpace_padded_gzip (l r : string) :
  blank l = true -> blank r = true -> TrimSpace (l ++ "gzip" ++ r) = "gzip".
Proof.
  intros Hl Hr. unfold TrimSpace, TrimRightSpace.
  rewrite (TrimLeftSpace_blank l _ Hl).
  change (TrimLeftSpace ("gzip" ++ r)) with ("gzip" ++ r).
  rewrite rev_app, TrimLeftSpaceRev_blank by by rewrite blank_rev.
  reflexivity.
Qed.

(** X12. Blanks around an item do not matter: a request whose
    Accept-Encoding list holds gzip surrounded by any number of spaces,
    tabs or line breaks accepts gzip. *)
Theorem padded_gzip_accepted (req : Request) (value l r : string) :
  acceptEncodingIs req value ->
  In (l ++ "gzip" ++ r) (Split value ",") ->
  blank l = true ->
  blank r = true ->
  acceptEncodingGzip req = true.
Proof.
  intros Hv Hin Hl Hr.
  rewrite (acceptEncodingGzip_value req value Hv).
  apply existsb_exists. exists (l ++ "gzip" ++ r). split; [done|].
  by rewrite (TrimSpace_padded_gzip l r Hl Hr).
Qed.

(* ===================================================================== *)
(** ** The shape of the ETag *)
(* ===================================================================== *)

Lemma sha256_round_length (s : list Z) (kw : Z * Z) :
  length s = 8%nat -> length (Sha256.round s kw) = 8%nat.
Proof.
  intros Hlen.
  do 9 (destruct s as [|? s]; [discriminate Hlen || reflexivity|]).
  discriminate Hlen.
Qed.

Lemma sha256_rounds_length (l : list (Z * Z)) (s : list Z) :
  length s = 8%nat -> length (fold_left Sha256.round l s) = 8%nat.
Proof.
  revert s. induction l as [|kw l IH]; intros s Hlen; [done|].
  cbn [fold_left]. by apply IH, sha256_round_length.
Qed.

Lemma sha256_block_length (hs : list Z) (p : list byte) :
  length hs = 8%nat -> length (Sha256.block hs p) = 8%nat.
Proof.
  intros Hlen. unfold Sha256.block.
  rewrite length_map, length_combine, sha256_rounds_length, Hlen by done.
  reflexivity.
Qed.

Lemma sha1_round_length (s : list Z) (iw : nat * Z) :
  length s = 5%nat -> length (Sha1.round s iw) = 5%nat.
Proof.
  intros Hlen.
  do 6 (destruct s as [|? s]; [discriminate Hlen || idtac|]);
    [|discriminate Hlen].
  unfold Sha1.round. by destruct (Sha1.fk (fst iw) z0 z1 z2).
Qed.

Lemma sha1_rounds_length (l : list (nat * Z)) (s : list Z) :
  length s = 5%nat -> length (fold_left Sha1.round l s) = 5%nat.
Proof.
  revert s. induction l as [|iw l IH]; intros s Hlen; [done|].
  cbn [fold_left]. by apply IH, sha1_round_length.
Qed.

Lemma sha1_block_length (hs : list Z) (p : list byte) :
  length hs = 5%nat -> length (Sha1.block hs p) = 5%nat.
Proof.
  intros Hlen. unfold Sha1.block.
  rewrite length_map, length_combine, sha1_rounds_length, Hlen by done.
  reflexivity.
Qed.

Lemma fold_block_length (block : list Z -> list byte -> list Z) (n : nat)
    (blocks : list (list byte)) (hs : list Z) :
  (forall hs p, length hs = n -> length (block hs p) = n) ->
  length hs = n -> length (fold_left block blocks hs) = n.
Proof.
  intros Hblock. revert hs.
  induction blocks as [|p ps IH]; intros hs Hlen; [done|].
  cbn [fold_left]. by apply IH, Hblock.
Qed.

Lemma putBe32_words_length (hs : list Z) :
  length (flat_map putBe32 hs) = (4 * length hs)%nat.
Proof.
  induction hs as [|h hs IH]; [done|].
  cbn [flat_map]. rewrite length_app, IH. cbn [length putBe32]. lia.
Qed.

(** A SHA-256 digest has 32 bytes, a SHA-1 digest 20. *)
Lemma Sha256_Sum_length (msg : list byte) : length (Sha256.Sum msg) = 32%nat.
Proof.
  unfold Sha256.Sum. cbn zeta. rewrite putBe32_words_length.
  by rewrite (fold_block_length Sha256.block 8 _ _ sha256_block_length).
Qed.

Lemma Sha1_Sum_length (msg : list byte) : length (Sha1.Sum msg) = 20%nat.
Proof.
  unfold Sha1.Sum. cbn zeta. rewrite putBe32_words_length.
  by rewrite (fold_block_length Sha1.block 5 _ _ sha1_block_length).
Qed.

Lemma alphabet_positions (n : nat) :
  (n < 64)%nat ->
  match String.get n Base64.encodeStd with
  | Some c => hasByte c Base64.encodeStd = true
  | None => False
  end.
Proof.
  intros Hn.
  assert (Hall : forallb
                   (fun n => match String.get n Base64.encodeStd with
                             | Some c => hasByte c Base64.encodeStd
                             | None => false
                             end) (seq 0 64) = true)
    by (vm_compute; reflexivity).
  rewrite forallb_forall in Hall.
  specialize (Hall n). rewrite in_seq in Hall.
  destruct (String.get n Base64.encodeStd); [apply Hall; lia|].
  assert (false = true) by (apply Hall; lia). discriminate.
Qed.

(** Every output character is taken from the alphabet. *)
Lemma sextet_alphabet (enc : Base64.Encoding) (v : Z) :
  Base64.encode enc = Base64.encodeStd ->
  hasByte (Base64.sextet enc v) Base64.encodeStd = true.
Proof.
  intros Henc. unfold Base64.sextet. rewrite Henc.
  assert (Hn : (Z.to_nat (Z.land v 63) < 64)%nat).
  { change 63 with (Z.ones 6). rewrite Z.land_ones by lia.
    pose proof (Z.mod_pos_bound v (2 ^ 6) ltac:(lia)). lia. }
  pose proof (alphabet_positions _ Hn) as Hpos.
  by destruct (String.get (Z.to_nat (Z.land v 63)) Base64.encodeStd).
Qed.

(** The encoding of 3q+2 bytes: 4q+3 characters of the alphabet, then
    the padding of one character if the encoding pads. *)
Lemma EncodeToString_shape (enc : Base64.Encoding) (q : nat)
    (src : list byte) :
  Base64.encode enc = Base64.encodeStd ->
  length src = (3 * q + 2)%nat ->
  exists body,
    Base64.EncodeToString enc src = body ++ Base64.pad enc 1
    /\ String.length body = (4 * q + 3)%nat
    /\ forall c, hasByte c body = true -> hasByte c Base64.encodeStd = true.
Proof.
  intros Henc. revert src. induction q as [|q IH]; intros src Hlen.
  - destruct src as [|b0 [|b1 [|b2 src]]]; try discriminate Hlen.
    cbn [Base64.EncodeToString].
    eexists (String _ (String _ (String _ ""))).
    split; [reflexivity|]. split; [reflexivity|].
    intros c Hc. cbn [hasByte] in Hc.
    repeat (apply orb_true_iff in Hc as [Hc|Hc];
            [apply Ascii.eqb_eq in Hc; subst c; by apply sextet_alphabet|]).
    discriminate.
  - destruct src as [|b0 [|b1 [|b2 src]]]; try (cbn in Hlen; lia).
    destruct (IH src) as (body & Heq & Hbody & Hin);
      [cbn [length] in Hlen; lia|].
    cbn [Base64.EncodeToString]. rewrite Heq.
    eexists (String _ (String _ (String _ (String _ body)))).
    split; [reflexivity|]. split; [cbn [String.length]; lia|].
    intros c Hc. cbn [hasByte] in Hc.
    repeat (apply orb_true_iff in Hc as [Hc|Hc];
            [apply Ascii.eqb_eq in Hc; subst c; by apply sextet_alphabet|]).
    by apply Hin.
Qed.

(** X13. The ETag of a served object is a double quote, 43 characters of
    the base64 alphabet and a double quote: 45 characters, never padded
    and with no quote inside. *)
Theorem etag_is_quoted_unpadded_base64 (rt : Runtime) (s : S3Website)
    (req : Request) (key : string) (o : GetObjectOutput) :
  GetObject (client s) (getInput s key) = Ok o ->
  readErr (Body o) = None ->
  exists body,
    header (run (serveFile rt s req key) emptyWorld) !! "Etag"
    = Some [quote ++ body ++ quote]
    /\ String.length body = 43%nat
    /\ (forall c, hasByte c body = true ->
                  hasByte c Base64.encodeStd = true)
    /\ hasByte dquote body = false
    /\ hasByte "=" body = false.
Proof.
  intros Hget Hread.
  rewrite (run_served rt s req key o Hget Hread). cbn [header].
  rewrite servedHeader_etag. unfold etagOf.
  destruct (EncodeToString_shape base64Encoding 10
              (Sha256.Sum (objectBytes o)) eq_refl (Sha256_Sum_length _))
    as (body & Heq & Hlen & Hin).
  change (Base64.pad base64Encoding 1) with "" in Heq.
  rewrite append_nil_r in Heq. rewrite Heq.
  exists body. split; [done|]. split; [exact Hlen|]. split; [exact Hin|].
  split.
  - destruct (hasByte dquote body) eqn:Hq; [|done].
    apply Hin in Hq. vm_compute in Hq. discriminate.
  - destruct (hasByte "=" body) eqn:Hq; [|done].
    apply Hin in Hq. vm_compute in Hq. discriminate.
Qed.

(** X14. In the stand-alone variant the ETag is the digest of exactly the
    bytes that are transmitted, written as a double quote, 27 characters
    of the base64 alphabet, one padding sign and a double quote. *)
Theorem Main_etag_is_quoted_padded_base64 (rt : Runtime) (s : S3Website)
    (req : Request) (key : string) (o : GetObjectOutput) :
  GetObject (client s) (getInput s key) = Ok o ->
  readErr (Body o) = None ->
  let w' := run (Main.serveFile rt s req key) emptyWorld in
  exists transmitted body,
    responses w' = [HttpServeContent key (TimeValue (LastModified o))
                      transmitted]
    /\ header w' !! "Etag"
       = Some [etagOf Base64.StdEncoding (Sha1.Sum transmitted)]
    /\ etagOf Base64.StdEncoding (Sha1.Sum transmitted)
       = quote ++ (body ++ "=") ++ quote
    /\ String.length body = 27%nat
    /\ forall c, hasByte c body = true -> hasByte c Base64.encodeStd = true.
Proof.
  intros Hget Hread w'. subst w'. unfold run.
  rewrite (Main_serveFile_served rt s req key emptyWorld o Hget Hread).
  cbn [snd header trace emptyWorld].
  destruct (EncodeToString_shape Base64.StdEncoding 6
              (Sha1.Sum (Main.servedContent rt req key o ∅))
              eq_refl (Sha1_Sum_length _))
    as (body & Heq & Hlen & Hin).
  exists (Main.servedContent rt req key o ∅), body.
  split; [done|]. split.
  - unfold Main.servedHeader, etagOf.
    repeat match goal with |- context [if ?b then _ else _] => destruct b end;
      header_lookup.
  - split; [unfold etagOf; by rewrite Heq|]. by split.
Qed.

(* ===================================================================== *)
(** ** The stand-alone variant *)
(* ===================================================================== *)

Lemma Main_serveFile_read_error (rt : Runtime) (s : S3Website)
    (req : Request) (key : string) (w : World) (o : GetObjectOutput)
    (e : error) :
  GetObject (client s) (getInput s key) = Ok o ->
  readErr (Body o) = Some e ->
  Main.serveFile rt s req key w
  = (tt, {| header := header w;
            trace := trace w ++ [S3GetObject (getInput s key);
                                 HttpError (errText e) 500] |}).
Proof.
  intros Hget Hread.
  unfold Main.serveFile, getObject. monad.
  fold (getInput s key). rewrite Hget. monad.
  unfold ReadAll. rewrite Hread. monad. by rewrite <- app_assoc.
Qed.

(** X15. The stand-alone variant reads the whole body before it touches
    the response: when the read fails, the header map is exactly as the
    handler received it and the 500 is the only thing written. *)
Theorem Main_read_failure_leaves_headers (rt : Runtime) (s : S3Website)
    (req : Request) (key : string) (w : World) (o : GetObjectOutput)
    (e : error) :
  GetObject (client s) (getInput s key) = Ok o ->
  readErr (Body o) = Some e ->
  let w' := run (Main.serveFile rt s req key) w in
  header w' = header w
  /\ trace w' = (trace w ++ [S3GetObject (getInput s key);
                             HttpError (errText e) 500])%list.
Proof.
  intros Hget Hread w'. subst w'. unfold run.
  by rewrite (Main_serveFile_read_error rt s req key w o e Hget Hread).
Qed.

(** X16. In the stand-alone variant the content-type the store reports
    never reaches the Content-Type header: on a fresh response the header
    is the type of the key's extension or, failing that, the type sniffed
    from the bytes, and it is not empty as long as sniffing answers. *)
Theorem Main_content_type_ignores_store (rt : Runtime) (s : S3Website)
    (req : Request) (key : string) (o : GetObjectOutput) :
  GetObject (client s) (getInput s key) = Ok o ->
  readErr (Body o) = None ->
  (forall data, DetectContentType rt data <> "") ->
  let byExtension := TypeByExtension rt (Ext key) in
  let contentType :=
    if String.eqb byExtension ""
    then DetectContentType rt (objectBytes o) else byExtension in
  header (run (Main.serveFile rt s req key) emptyWorld) !! "Content-Type"
  = Some [contentType]
  /\ contentType <> "".
Proof.
  intros Hget Hread Hsniff byExtension contentType.
  subst byExtension contentType. unfold run.
  rewrite (Main_serveFile_served rt s req key emptyWorld o Hget Hread).
  cbn [snd header emptyWorld]. split.
  - unfold Main.servedHeader, Main.resolvedContentType, headerGet.
    rewrite canonical_content_type, lookup_empty.
    change (String.eqb "" "") with true. cbn iota. fold (objectBytes o).
    repeat match goal with
           | |- context [if negb ?b then _ else _] => destruct (negb b)
           | |- context [if ?b && ?c then _ else _] => destruct (b && c)
           end; header_lookup.
  - destruct (String.eqb (TypeByExtension rt (Ext key)) "") eqn:Hext;
      [apply Hsniff|]. by apply String.eqb_neq.
Qed.

(* ===================================================================== *)
(** ** Configuration *)
(* ===================================================================== *)

Lemma getenv_nonempty (env : gmap string string) (p key defaultValue : string) :
  defaultValue <> "" -> getenv env p key defaultValue <> "".
Proof.
  intros Hdefault. unfold getenv.
  destruct (String.eqb p "") eqn:Hp; cbn [negb];
    [|by apply String.eqb_neq].
  destruct (String.eqb (Getenv env key) "") eqn:Hv; cbn [negb];
    [done | by apply String.eqb_neq].
Qed.

Lemma getenv_fixed (env : gmap string string) (p key defaultValue : string) :
  getenv env (getenv env p key defaultValue) key defaultValue
  = getenv env p key defaultValue.
Proof.
  unfold getenv.
  destruct (String.eqb p "") eqn:Hp; cbn [negb]; [|by rewrite Hp].
  destruct (String.eqb (Getenv env key) "") eqn:Hv; cbn [negb];
    [|by rewrite ?Hv].
  destruct (String.eqb defaultValue ""); cbn [negb]; by rewrite ?Hv.
Qed.

(** X17. After configuration the profile and the region are never empty,
    whatever the command line and the environment hold; the address is
    the flag's value; and configuring twice changes nothing. *)
Theorem configuration_is_complete (env : gmap string string)
    (config : Config) :
  cfg_profile (configure env config) <> ""
  /\ cfg_region (configure env config) <> ""
  /\ cfg_addr (configure env config) = cfg_addr config
  /\ configure env (configure env config) = configure env config.
Proof.
  unfold configure. cbn [cfg_profile cfg_region cfg_addr cfg_bucket].
  split; [by apply getenv_nonempty|]. split; [by apply getenv_nonempty|].
  split; [done|]. by rewrite !getenv_fixed.
Qed.

(** X18. A variable that is set to the empty string counts as unset, and
    a flag that is given wins over the environment: the configuration is
    the same with the variable removed, and it is the command line's when
    profile, region and bucket are all given. *)
Theorem configuration_precedence (env : gmap string string)
    (config : Config) (name : string) :
  (env !! name = Some "" ->
   configure env config = configure (delete name env) config)
  /\ (cfg_profile config <> "" -> cfg_region config <> "" ->
      cfg_bucket config <> "" -> configure env config = config).
Proof.
  split.
  - intros Hempty.
    assert (Hget : forall key, Getenv (delete name env) key = Getenv env key).
    { intros key. unfold Getenv.
      destruct (decide (name = key)) as [<-|Hne].
      - by rewrite lookup_delete_eq, Hempty.
      - by rewrite lookup_delete_ne. }
    unfold configure, getenv. by rewrite !Hget.
  - intros Hp Hr Hb. unfold configure, getenv.
    apply String.eqb_neq in Hp, Hr, Hb. rewrite Hp, Hr, Hb.
    by destruct config.
Qed.

Lemma Main_serveFile_absent (rt : Runtime) (s : S3Website) (req : Request)
    (key : string) (w : World) (e : error) :
  GetObject (client s) (getInput s key) = Err e ->
  hasAwsCode e "NoSuchKey" = true ->
  Main.serveFile rt s req key w
  = (tt, {| header := header w;
            trace := trace w ++ [S3GetObject (getInput s key);
                                 HttpError "404 page not found" 404] |}).
Proof.
  intros Hget Hcode.
  unfold Main.serveFile, getObject. monad.
  fold (getInput s key). rewrite Hget. monad. rewrite Hcode. monad.
  by rewrite <- app_assoc.
Qed.

Lemma Main_serveFile_fetch_error (rt : Runtime) (s : S3Website)
    (req : Request) (key : string) (w : World) (e : error) :
  GetObject (client s) (getInput s key) = Err e ->
  hasAwsCode e "NoSuchKey" = false ->
  Main.serveFile rt s req key w
  = (tt, {| header := header w;
            trace := trace w ++ [S3GetObject (getInput s key);
                                 HttpError (errText e) 500] |}).
Proof.
  intros Hget Hcode.
  unfold Main.serveFile, getObject. monad.
  fold (getInput s key). rewrite Hget. monad. rewrite Hcode. monad.
  by rewrite <- app_assoc.
Qed.

(** The stand-alone [serveFile] too asks for the object once and then
    makes one call that writes the response. *)
Lemma Main_serveFile_trace (rt : Runtime) (s : S3Website) (req : Request)
    (key : string) (w : World) :
  exists e, isHttp e = true
            /\ trace (run (Main.serveFile rt s req key) w)
               = (trace w ++ [S3GetObject (getInput s key); e])%list.
Proof.
  unfold run.
  destruct (GetObject (client s) (getInput s key)) as [o|e] eqn:Hget.
  - destruct (readErr (Body o)) as [e|] eqn:Hread.
    + rewrite (Main_serveFile_read_error rt s req key w o e Hget Hread).
      eexists; split; cycle 1; reflexivity.
    + rewrite (Main_serveFile_served rt s req key w o Hget Hread).
      eexists; split; cycle 1; reflexivity.
  - destruct (hasAwsCode e "NoSuchKey") eqn:Hcode.
    + rewrite (Main_serveFile_absent rt s req key w e Hget Hcode).
      eexists; split; cycle 1; reflexivity.
    + rewrite (Main_serveFile_fetch_error rt s req key w e Hget Hcode).
      eexists; split; cycle 1; reflexivity.
Qed.

(** Where the stand-alone [ServeHTTP] hands over to its [serveFile], and
    where it does not. *)
Lemma Main_ServeHTTP_slash (rt : Runtime) (s : S3Website) (req : Request)
    (w : World) :
  HasSuffix (URL_Path req) "/" = true ->
  Main.ServeHTTP rt s req w
  = Main.serveFile rt s req (URL_Path req ++ "index.html") w.
Proof. intros Hslash. unfold Main.ServeHTTP. cbn zeta. by rewrite Hslash. Qed.

Lemma Main_ServeHTTP_found (rt : Runtime) (s : S3Website) (req : Request)
    (w : World) :
  HasSuffix (URL_Path req) "/" = false ->
  objectExists s (URL_Path req) ->
  Main.ServeHTTP rt s req w
  = Main.serveFile rt s req (URL_Path req)
      {| header := header w;
         trace := trace w ++ [S3HeadObject (headInput s (URL_Path req))] |}.
Proof.
  intros Hslash Hex. unfold Main.ServeHTTP. cbn zeta. rewrite Hslash.
  destruct (headObject_found s _ w Hex) as [m Hm].
  unfold bind at 1. by rewrite Hm.
Qed.

Lemma Main_ServeHTTP_unresolved (rt : Runtime) (s : S3Website)
    (req : Request) (w : World) :
  HasSuffix (URL_Path req) "/" = false ->
  ~ objectExists s (URL_Path req) ->
  Main.ServeHTTP rt s req w = ServeHTTP rt s req w.
Proof.
  intros Hslash Hnot. unfold Main.ServeHTTP, ServeHTTP. cbn zeta.
  rewrite Hslash.
  destruct (head_answer s (URL_Path req)) as [Hex|[Habs|[e He]]];
    [done| |].
  - unfold bind. by rewrite (headObject_absent s _ w Habs).
  - unfold bind. by rewrite (headObject_fails s _ e w He).
Qed.

(** The bucket and the key of every S3 request of a run of the
    stand-alone handler. *)
Lemma Main_trace_targets (rt : Runtime) (s : S3Website) (req : Request)
    (e : Event) (b k : string) :
  In e (trace (run (Main.ServeHTTP rt s req) emptyWorld)) ->
  s3Target e = Some (b, k) ->
  b = bucket s
  /\ if HasSuffix (URL_Path req) "/"
     then k = URL_Path req ++ "index.html"
     else k = URL_Path req \/ k = URL_Path req ++ "/index.html".
Proof.
  intros Hin Htarget. unfold run in Hin.
  destruct (HasSuffix (URL_Path req) "/") eqn:Hslash.
  - rewrite (Main_ServeHTTP_slash rt s req emptyWorld Hslash) in Hin.
    destruct (Main_serveFile_trace rt s req (URL_Path req ++ "index.html")
                emptyWorld) as (e' & He' & Ht).
    unfold run in Ht. rewrite Ht in Hin. cbn in Hin.
    destruct Hin as [<-|[<-|[]]]; [by inversion Htarget|].
    by rewrite (http_no_target _ He') in Htarget.
  - destruct (head_answer s (URL_Path req)) as [Hex|Hno].
    + rewrite (Main_ServeHTTP_found rt s req emptyWorld Hslash Hex) in Hin.
      destruct (Main_serveFile_trace rt s req (URL_Path req)
                  {| header := ∅;
                     trace := [S3HeadObject (headInput s (URL_Path req))] |})
        as (e' & He' & Ht).
      unfold run in Ht. cbn [header trace emptyWorld app] in *.
      rewrite Ht in Hin. cbn in Hin.
      destruct Hin as [<-|[<-|[<-|[]]]];
        [inversion Htarget; auto | inversion Htarget; auto |].
      by rewrite (http_no_target _ He') in Htarget.
    + assert (Hnot : ~ objectExists s (URL_Path req)).
      { intros [m Hm]. destruct Hno as [(e' & He' & _)|(e' & He' & _)];
          congruence. }
      rewrite (Main_ServeHTTP_unresolved rt s req emptyWorld Hslash Hnot)
        in Hin.
      pose proof (trace_targets rt s req e b k Hin Htarget) as Ht.
      by rewrite Hslash in Ht.
Qed.

(** X19. The handler [main] installs, the stand-alone [ServeHTTP] over
    the bucket of the configuration, queries the bucket given by the flag
    and, when the flag is empty, the one of the AWS_BUCKET variable; there
    is no default, so with neither set every request to S3 names the
    empty bucket.  It listens on the flag's address. *)
Theorem configured_bucket_is_queried (rt : Runtime)
    (env : gmap string string) (config : Config) (c : S3) (req : Request)
    (e : Event) (b k : string) :
  In e (trace (run (Main.ServeHTTP rt (snd (listenArguments env config c))
                      req) emptyWorld)) ->
  s3Target e = Some (b, k) ->
  fst (listenArguments env config c) = cfg_addr config
  /\ b = if negb (String.eqb (cfg_bucket config) "")
         then cfg_bucket config else Getenv env "AWS_BUCKET".
Proof.
  unfold listenArguments. cbn [fst snd]. intros Hin Htarget.
  split; [done|].
  destruct (Main_trace_targets rt _ req e b k Hin Htarget) as [-> _].
  unfold NewS3Website, configure, getenv.
  cbn [bucket cfg_bucket].
  destruct (negb (String.eqb (cfg_bucket config) "")); [done|].
  destruct (String.eqb (Getenv env "AWS_BUCKET") "") eqn:Hv; cbn [negb];
    [|done].
  symmetry. by apply String.eqb_eq.
Qed.

(** X20. The two variants resolve alike: for a request that is not
    handed to [serveFile] (a failed check, a redirect, a missing object)
    the stand-alone handler does exactly what the package's does. *)
Theorem variants_resolve_alike (rt : Runtime) (s : S3Website)
    (req : Request) (w : World) :
  HasSuffix (URL_Path req) "/" = false ->
  ~ objectExists s (URL_Path req) ->
  Main.ServeHTTP rt s req w = ServeHTTP rt s req w.
Proof.
  intros Hslash Hnot. unfold Main.ServeHTTP, ServeHTTP. cbn zeta.
  rewrite Hslash.
  destruct (head_answer s (URL_Path req)) as [Hex|[Habs|[e He]]];
    [done| |].
  - unfold bind. by rewrite (headObject_absent s _ w Habs).
  - unfold bind. by rewrite (headObject_fails s _ e w He).
Qed.

(** X21. The content-type the store reports wins over the key's
    extension; a report of the empty string counts as none, and then the
    header is the type of the extension. *)
Theorem store_content_type_wins (rt : Runtime) (s : S3Website)
    (req : Request) (key : string) (o : GetObjectOutput) :
  GetObject (client s) (getInput s key) = Ok o ->
  readErr (Body o) = None ->
  let w' := run (serveFile rt s req key) emptyWorld in
  (forall contentType,
     ContentType o = Some contentType -> contentType <> "" ->
     header w' !! "Content-Type" = Some [contentType])
  /\ (ContentType o = Some "" \/ ContentType o = None ->
      header w' !! "Content-Type" = Some [TypeByExtension rt (Ext key)]).
Proof.
  intros Hget Hread w'. subst w'.
  rewrite (run_served rt s req key o Hget Hread). cbn [header].
  rewrite servedHeader_content_type. unfold resolvedContentType. split.
  - intros contentType -> Hne. apply String.eqb_neq in Hne. by rewrite Hne.
  - by intros [->| ->].
Qed.

(* ===================================================================== *)
(** ** The further properties at concrete requests *)
(* ===================================================================== *)

Lemma s3_requests_stay_in_bucket_witness :
  In (S3HeadObject (headInput site "/about/index.html"))
     (trace (run (ServeHTTP refRuntime site (request "/about" None))
               emptyWorld))
  /\ s3Target (S3HeadObject (headInput site "/about/index.html"))
     = Some ("example-bucket", "/about/index.html")
  /\ "example-bucket" = bucket site.
Proof.
  assert (Hin : In (S3HeadObject (headInput site "/about/index.html"))
                  (trace (run (ServeHTTP refRuntime site
                                 (request "/about" None)) emptyWorld)))
    by (vm_compute; auto).
  split; [exact Hin|]. split; [reflexivity|].
  apply (proj1 (s3_requests_stay_in_bucket refRuntime site
                  (request "/about" None) _ _ _ Hin eq_refl)).
Defined.

Lemma redirect_only_for_directories_witness :
  In (HttpRedirect "/about/" 302)
     (trace (run (ServeHTTP refRuntime site (request "/about" None))
               emptyWorld))
  /\ objectExists site "/about/index.html".
Proof.
  assert (Hin : In (HttpRedirect "/about/" 302)
                  (trace (run (ServeHTTP refRuntime site
                                 (request "/about" None)) emptyWorld)))
    by (vm_compute; auto).
  split; [exact Hin|].
  apply (redirect_only_for_directories refRuntime site
           (request "/about" None) "/about/" 302 Hin).
Defined.

Lemma absence_codes_not_interchangeable_witness :
  GetObject (client swapped) (getInput swapped "/index.html") = Err NotFound
  /\ hasAwsCode NotFound "NotFound" = true
  /\ trace (run (serveFile refRuntime swapped (request "/" None)
                   "/index.html") emptyWorld)
     = [S3GetObject (getInput swapped "/index.html");
        HttpError "NotFound: Not Found" 500].
Proof.
  split; [reflexivity|]. split; [reflexivity|].
  apply (proj1 (absence_codes_not_interchangeable refRuntime swapped
                  (request "/" None) "/index.html" NotFound)
           eq_refl eq_refl).
Defined.

Lemma vanished_object_is_not_found_witness :
  HasSuffix (URL_Path (request "/gone" None)) "/" = false
  /\ objectExists vanishing "/gone"
  /\ GetObject (client vanishing) (getInput vanishing "/gone") = Err NoSuchKey
  /\ hasAwsCode NoSuchKey "NoSuchKey" = true
  /\ header (run (ServeHTTP refRuntime vanishing (request "/gone" None))
               emptyWorld) = ∅.
Proof.
  assert (Hex : objectExists vanishing "/gone")
    by (exists (metadata indexPage); reflexivity).
  split; [reflexivity|]. split; [exact Hex|].
  split; [reflexivity|]. split; [reflexivity|].
  apply (proj2 (vanished_object_is_not_found refRuntime vanishing
                  (request "/gone" None) NoSuchKey
                  eq_refl Hex eq_refl eq_refl)).
Defined.

Lemma slash_path_fetches_checked_index_witness :
  HasSuffix (URL_Path (request "/about" None)) "/" = false
  /\ objectAbsent site "/about"
  /\ URL_Path (request "/about/" None) = URL_Path (request "/about" None) ++ "/"
  /\ ServeHTTP refRuntime site (request "/about/" None) emptyWorld
     = serveFile refRuntime site (request "/about/" None)
         "/about/index.html" emptyWorld.
Proof.
  assert (Habs : objectAbsent site "/about")
    by (exists NotFound; split; reflexivity).
  split; [reflexivity|]. split; [exact Habs|]. split; [reflexivity|].
  apply (proj1 (proj2 (slash_path_fetches_checked_index refRuntime site
                         (request "/about" None) (request "/about/" None)
                         eq_refl Habs eq_refl))).
Defined.

Lemma served_header_names_witness :
  GetObject (client site) (getInput site "/index.html") = Ok indexPage
  /\ readErr (Body indexPage) = None
  /\ map_Forall (fun _ values => length values = 1%nat)
       (header (run (serveFile refRuntime site (request "/" None)
                       "/index.html") emptyWorld)).
Proof.
  split; [reflexivity|]. split; [reflexivity|].
  apply (proj2 (served_header_names refRuntime site (request "/" None)
                  "/index.html" indexPage eq_refl eq_refl)).
Defined.

Lemma response_ignores_chunking_witness :
  GetObject (client site) (getInput site "/app.js") = Ok appJs
  /\ GetObject (client mirror) (getInput mirror "/app.js") = Ok appJsWhole
  /\ readErr (Body appJs) = None
  /\ readErr (Body appJsWhole) = None
  /\ reads (Body appJs) <> reads (Body appJsWhole)
  /\ concat (reads (Body appJs)) = concat (reads (Body appJsWhole))
  /\ ContentLength appJs = ContentLength appJsWhole
  /\ ContentType appJs = ContentType appJsWhole
  /\ CacheControl appJs = CacheControl appJsWhole
  /\ LastModified appJs = LastModified appJsWhole
  /\ header (run (serveFile refRuntime site (request "/app.js" (Some "gzip"))
                    "/app.js") emptyWorld)
     = header (run (serveFile refRuntime mirror
                      (request "/app.js" (Some "gzip")) "/app.js")
                 emptyWorld).
Proof.
  split; [reflexivity|]. split; [reflexivity|]. split; [reflexivity|].
  split; [reflexivity|]. split; [discriminate|].
  repeat (split; [reflexivity|]).
  apply (proj1 (response_ignores_chunking refRuntime site mirror
                  (request "/app.js" (Some "gzip")) "/app.js"
                  appJs appJsWhole
                  eq_refl eq_refl eq_refl eq_refl eq_refl eq_refl eq_refl
                  eq_refl eq_refl)).
Defined.

Lemma media_type_parameters_ignored_witness :
  GetObject (client mirror) (getInput mirror "/page.html") = Ok htmlUtf8
  /\ readErr (Body htmlUtf8) = None
  /\ ContentType htmlUtf8 = Some ("text/html" ++ ";" ++ " charset=utf-8")
  /\ hasByte ";" "text/html" = false
  /\ header (run (serveFile refRuntime mirror
                    (request "/page.html" (Some "gzip")) "/page.html")
               emptyWorld) !! "Content-Type"
     = Some ["text/html" ++ ";" ++ " charset=utf-8"].
Proof.
  repeat (split; [reflexivity|]).
  apply (proj2 (media_type_parameters_ignored refRuntime mirror
                  (request "/page.html" (Some "gzip")) "/page.html" htmlUtf8
                  "text/html" " charset=utf-8"
                  eq_refl eq_refl eq_refl eq_refl)).
Defined.

Lemma accept_encoding_lists_compose_witness :
  acceptEncodingIs (request "/" (Some "deflate, gzip"))
    ("deflate" ++ "," ++ " gzip")
  /\ acceptEncodingIs (request "/" (Some "deflate")) "deflate"
  /\ acceptEncodingIs (request "/" (Some " gzip")) " gzip"
  /\ acceptEncodingGzip (request "/" (Some "deflate, gzip"))
     = acceptEncodingGzip (request "/" (Some "deflate"))
       || acceptEncodingGzip (request "/" (Some " gzip")).
Proof.
  assert (H : acceptEncodingIs (request "/" (Some "deflate, gzip"))
                ("deflate" ++ "," ++ " gzip"))
    by (exists []; reflexivity).
  assert (H1 : acceptEncodingIs (request "/" (Some "deflate")) "deflate")
    by (exists []; reflexivity).
  assert (H2 : acceptEncodingIs (request "/" (Some " gzip")) " gzip")
    by (exists []; reflexivity).
  split; [exact H|]. split; [exact H1|]. split; [exact H2|].
  apply (accept_encoding_lists_compose _ _ _ _ _ H H1 H2).
Defined.

Lemma padded_gzip_accepted_witness :
  acceptEncodingIs (request "/" (Some "deflate,  gzip ")) "deflate,  gzip "
  /\ In ("  " ++ "gzip" ++ " ") (Split "deflate,  gzip " ",")
  /\ blank "  " = true
  /\ blank " " = true
  /\ acceptEncodingGzip (request "/" (Some "deflate,  gzip ")) = true.
Proof.
  assert (H : acceptEncodingIs (request "/" (Some "deflate,  gzip "))
                "deflate,  gzip ")
    by (exists []; reflexivity).
  assert (Hin : In ("  " ++ "gzip" ++ " ") (Split "deflate,  gzip " ","))
    by (vm_compute; auto).
  split; [exact H|]. split; [exact Hin|].
  split; [reflexivity|]. split; [reflexivity|].
  apply (padded_gzip_accepted _ _ _ _ H Hin eq_refl eq_refl).
Defined.

Lemma etag_is_quoted_unpadded_base64_witness :
  GetObject (client site) (getInput site "/index.html") = Ok indexPage
  /\ readErr (Body indexPage) = None
  /\ exists body,
       header (run (serveFile refRuntime site (request "/" None)
                      "/index.html") emptyWorld) !! "Etag"
       = Some [quote ++ body ++ quote]
       /\ String.length body = 43%nat.
Proof.
  split; [reflexivity|]. split; [reflexivity|].
  destruct (etag_is_quoted_unpadded_base64 refRuntime site (request "/" None)
              "/index.html" indexPage eq_refl eq_refl)
    as (body & Hetag & Hlen & _).
  exists body. split; [exact Hetag | exact Hlen].
Defined.

Lemma Main_etag_is_quoted_padded_base64_witness :
  GetObject (client site) (getInput site "/index.html") = Ok indexPage
  /\ readErr (Body indexPage) = None
  /\ exists transmitted,
       header (run (Main.serveFile refRuntime site (request "/" None)
                      "/index.html") emptyWorld) !! "Etag"
       = Some [etagOf Base64.StdEncoding (Sha1.Sum transmitted)].
Proof.
  split; [reflexivity|]. split; [reflexivity|].
  destruct (Main_etag_is_quoted_padded_base64 refRuntime site
              (request "/" None) "/index.html" indexPage eq_refl eq_refl)
    as (transmitted & body & _ & Hetag & _).
  exists transmitted. exact Hetag.
Defined.

Lemma Main_read_failure_leaves_headers_witness :
  GetObject (client site) (getInput site "/broken.txt") = Ok brokenTxt
  /\ readErr (Body brokenTxt) = Some timeout
  /\ header (run (Main.serveFile refRuntime site (request "/broken.txt" None)
                    "/broken.txt") emptyWorld)
     = header emptyWorld.
Proof.
  split; [reflexivity|]. split; [reflexivity|].
  apply (proj1 (Main_read_failure_leaves_headers refRuntime site
                  (request "/broken.txt" None) "/broken.txt" emptyWorld
                  brokenTxt timeout eq_refl eq_refl)).
Defined.

Lemma Main_content_type_ignores_store_witness :
  GetObject (client site) (getInput site "/index.html") = Ok indexPage
  /\ readErr (Body indexPage) = None
  /\ (forall data, DetectContentType refRuntime data <> "")
  /\ header (run (Main.serveFile refRuntime site (request "/" None)
                    "/index.html") emptyWorld) !! "Content-Type"
     = Some ["text/html; charset=utf-8"].
Proof.
  assert (Hsniff : forall data, DetectContentType refRuntime data <> "")
    by (intros data; discriminate).
  split; [reflexivity|]. split; [reflexivity|]. split; [exact Hsniff|].
  apply (proj1 (Main_content_type_ignores_store refRuntime site
                  (request "/" None) "/index.html" indexPage
                  eq_refl eq_refl Hsniff)).
Defined.

Lemma configuration_precedence_witness :
  environment !! "AWS_REGION" = Some ""
  /\ configure environment flagDefaults
     = configure (delete "AWS_REGION" environment) flagDefaults
  /\ configure environment commandLine = commandLine.
Proof.
  split; [reflexivity|]. split.
  - apply (proj1 (configuration_precedence environment flagDefaults
                    "AWS_REGION") eq_refl).
  - apply (proj2 (configuration_precedence environment commandLine
                    "AWS_REGION"));
      discriminate.
Defined.

Lemma configured_bucket_is_queried_witness :
  In (S3GetObject {| get_Bucket := "example-bucket";
                     get_Key := "/index.html" |})
     (trace (run (Main.ServeHTTP refRuntime
                    (snd (listenArguments environment flagDefaults
                            (client site)))
                    (request "/" None)) emptyWorld))
  /\ "example-bucket" = Getenv environment "AWS_BUCKET".
Proof.
  assert (Hin : In (S3GetObject {| get_Bucket := "example-bucket";
                                   get_Key := "/index.html" |})
                  (trace (run (Main.ServeHTTP refRuntime
                                 (snd (listenArguments environment
                                         flagDefaults (client site)))
                                 (request "/" None)) emptyWorld)))
    by (vm_compute; auto).
  split; [exact Hin|].
  apply (proj2 (configured_bucket_is_queried refRuntime environment
                  flagDefaults (client site) (request "/" None) _ _ _
                  Hin eq_refl)).
Defined.

Lemma variants_resolve_alike_witness :
  HasSuffix (URL_Path (request "/about" None)) "/" = false
  /\ ~ objectExists site "/about"
  /\ Main.ServeHTTP refRuntime site (request "/about" None) emptyWorld
     = ServeHTTP refRuntime site (request "/about" None) emptyWorld.
Proof.
  assert (Hnot : ~ objectExists site "/about")
    by (intros [m Hm]; discriminate Hm).
  split; [reflexivity|]. split; [exact Hnot|].
  apply (variants_resolve_alike refRuntime site (request "/about" None)
           emptyWorld eq_refl Hnot).
Defined.

Lemma store_content_type_wins_witness :
  GetObject (client site) (getInput site "/index.html") = Ok indexPage
  /\ readErr (Body indexPage) = None
  /\ header (run (serveFile refRuntime site (request "/" None)
                    "/index.html") emptyWorld) !! "Content-Type"
     = Some ["text/html"].
Proof.
  split; [reflexivity|]. split; [reflexivity|].
  apply (proj1 (store_content_type_wins refRuntime site (request "/" None)
                  "/index.html" indexPage eq_refl eq_refl)
           "text/html" eq_refl).
  discriminate.
Defined.
